(** * CMP SIM-management MCP server: authorization routes and tool handlers

    A shallow embedding of [src/index.ts] (the [MyMCP] session object and its
    four tool handlers) and of the Hono application that serves
    [GET /authorize] and [POST /approve], followed by the properties of the
    specification that are settled on it.

    The handlers are TypeScript over [any]-typed upstream payloads, so the
    embedding starts with the fragment of JavaScript they use: JSON values,
    property reads, truthiness, [||], [typeof], template-literal conversion,
    [parseInt], [forEach] and exceptions. *)

From Stdlib Require Import ZArith List String Ascii Bool Lia DecimalString
  DecimalPos.
Import ListNotations.
Open Scope string_scope.
Open Scope Z_scope.

Set Implicit Arguments.
Set Warnings "-register-all".

(** ** JavaScript values *)

Module Js.

(** The values an upstream JSON payload or a parsed form can hold.  Numbers
    are the integer-valued ones (status codes, counters, state codes, byte
    counts); an object is its list of own properties, first binding wins. *)
Inductive JsVal : Type :=
| JUndefined
| JNull
| JBool (b : bool)
| JNum (n : Z)
| JStr (s : string)
| JArr (items : list JsVal)
| JObj (fields : list (string * JsVal)).

(** What a [throw] carries: an [Error] instance with its [message], or any
    other value. *)
Inductive Thrown : Type :=
| JsError (message : string)
| NonError (v : JsVal).

(** A computation that returns or throws. *)
Inductive Result (A : Type) : Type :=
| Ok (a : A)
| Throw (e : Thrown).

Arguments Ok {A} a.
Arguments Throw {A} e.

Definition bind {A B : Type} (m : Result A) (k : A -> Result B) : Result B :=
  match m with
  | Ok a => k a
  | Throw e => Throw e
  end.

Notation "x <- m ;; k" := (bind m (fun x => k))
  (at level 61, m at next level, right associativity).

Definition nl : string := String (ascii_of_nat 10) EmptyString.

(** [Number::toString] on integers. *)
Definition num_to_string (n : Z) : string := NilZero.string_of_int (Z.to_int n).

(** [ToBoolean]. *)
Definition truthy (v : JsVal) : bool :=
  match v with
  | JUndefined | JNull => false
  | JBool b => b
  | JNum n => negb (n =? 0)
  | JStr s => negb (s =? "")%string
  | JArr _ | JObj _ => true
  end.

(** [a || b]. *)
Definition js_or (a b : JsVal) : JsVal := if truthy a then a else b.

Definition typeof (v : JsVal) : string :=
  match v with
  | JUndefined => "undefined"
  | JNull => "object"
  | JBool _ => "boolean"
  | JNum _ => "number"
  | JStr _ => "string"
  | JArr _ | JObj _ => "object"
  end.

(** [v === n] for a number literal [n]. *)
Definition strict_eq_num (v : JsVal) (n : Z) : bool :=
  match v with
  | JNum m => m =? n
  | _ => false
  end.

(** [v === s] for a string literal [s]. *)
Definition strict_eq_str (v : JsVal) (s : string) : bool :=
  match v with
  | JStr t => (t =? s)%string
  | _ => false
  end.

Fixpoint lookup (key : string) (fields : list (string * JsVal)) : JsVal :=
  match fields with
  | [] => JUndefined
  | (k, v) :: rest => if (k =? key)%string then v else lookup key rest
  end.

Fixpoint has_own (key : string) (fields : list (string * JsVal)) : bool :=
  match fields with
  | [] => false
  | (k, _) :: rest => (k =? key)%string || has_own key rest
  end.

(** Messages of the [TypeError]s the engine raises (V8 wording, the engine
    of the Workers runtime the project is deployed on). *)
Definition cannot_read (base key : string) : Thrown :=
  JsError ("Cannot read properties of " ++ base ++ " (reading '" ++ key ++ "')").

Definition not_a_function (expr : string) : Thrown :=
  JsError (expr ++ " is not a function").

Definition cannot_convert : Thrown :=
  JsError "Cannot convert object to primitive value".

(** Reading a property of [undefined] or [null] throws. *)
Definition object_coercible (v : JsVal) (key : string) : Result unit :=
  match v with
  | JUndefined => Throw (cannot_read "undefined" key)
  | JNull => Throw (cannot_read "null" key)
  | _ => Ok tt
  end.

(** [v.key] for the data properties the handlers read.  None of them is a
    member of [Object.prototype], [Array.prototype] or [String.prototype]
    other than [length], so a miss on a non-nullish value is [undefined].
    The length of a string is counted in bytes here; the handlers only
    compare it with zero. *)
Definition get (v : JsVal) (key : string) : Result JsVal :=
  _ <- object_coercible v key ;;
  Ok match v with
     | JObj fields => lookup key fields
     | JArr items =>
         if (key =? "length")%string then JNum (Z.of_nat (List.length items))
         else JUndefined
     | JStr s =>
         if (key =? "length")%string then JNum (Z.of_nat (String.length s))
         else JUndefined
     | _ => JUndefined
     end.

(** [ToString], as a template literal applies it.  A plain object prints as
    [[object Object]] unless it has an own [toString] property: a JSON value
    is never callable, and [OrdinaryToPrimitive] then finds no method that
    returns a primitive.  An array prints as [join(",")], with nullish
    elements printed empty. *)
Fixpoint ToString (v : JsVal) : Result string :=
  match v with
  | JUndefined => Ok "undefined"
  | JNull => Ok "null"
  | JBool true => Ok "true"
  | JBool false => Ok "false"
  | JNum n => Ok (num_to_string n)
  | JStr s => Ok s
  | JObj fields =>
      if has_own "toString" fields then Throw cannot_convert
      else Ok "[object Object]"
  | JArr items =>
      (fix join (l : list JsVal) : Result string :=
         match l with
         | [] => Ok ""
         | x :: rest =>
             a <- match x with
                  | JUndefined | JNull => Ok ""
                  | _ => ToString x
                  end ;;
             match rest with
             | [] => Ok a
             | _ => b <- join rest ;; Ok (a ++ "," ++ b)
             end
         end) items
  end.

(** The engine behaviour the embedding leaves open: the sign of
    [StringToNumber] (floating-point parsing, with its under- and overflow),
    and the text printed for a member a plain object inherits from
    [Object.prototype] (function source text). *)
Class Engine : Type := {
  StringToNumber_positive : string -> bool;
  Object_prototype_text : string -> option string
}.

(** [v > 0]: [ToPrimitive] with hint number, then [ToNumber]. *)
Definition gt_zero `{Engine} (v : JsVal) : Result bool :=
  match v with
  | JUndefined | JNull => Ok false
  | JBool b => Ok b
  | JNum n => Ok (0 <? n)
  | JStr s => Ok (StringToNumber_positive s)
  | JArr _ => s <- ToString v ;; Ok (StringToNumber_positive s)
  | JObj fields =>
      if has_own "toString" fields then Throw cannot_convert else Ok false
  end.

(** [xs.forEach((x, index) => { result += f(x, index) })]: the text the
    callback appends, in order; the first throw ends the loop. *)
Fixpoint each (f : JsVal -> nat -> Result string) (index : nat)
    (items : list JsVal) : Result string :=
  match items with
  | [] => Ok ""
  | x :: rest => a <- f x index ;; b <- each f (S index) rest ;; Ok (a ++ b)
  end.

Definition forEach (expr : string) (v : JsVal)
    (f : JsVal -> nat -> Result string) : Result string :=
  _ <- object_coercible v "forEach" ;;
  match v with
  | JArr items => each f 0%nat items
  | _ => Throw (not_a_function (expr ++ ".forEach"))
  end.

(** A template literal or a run of [result += ...]: the pieces are evaluated
    left to right and concatenated. *)
Fixpoint tpl (pieces : list (Result string)) : Result string :=
  match pieces with
  | [] => Ok ""
  | p :: rest => a <- p ;; b <- tpl rest ;; Ok (a ++ b)
  end.

Definition lit (s : string) : Result string := Ok s.

(** [${e}] *)
Definition sub (e : Result JsVal) : Result string := v <- e ;; ToString v.

(** [${e || "d"}] *)
Definition sub_or (e : Result JsVal) (d : string) : Result string :=
  v <- e ;; ToString (js_or v (JStr d)).

(** [haystack.includes(needle)] on strings. *)
Fixpoint includes (needle haystack : string) : bool :=
  prefix needle haystack ||
  match haystack with
  | EmptyString => false
  | String _ rest => includes needle rest
  end.

(** [v.includes(needle)] for a string literal [needle]: substring search on a
    string, element search on an array, and no such method on anything
    else. *)
Definition js_includes (expr : string) (v : JsVal) (needle : string)
    : Result bool :=
  _ <- object_coercible v "includes" ;;
  match v with
  | JStr s => Ok (includes needle s)
  | JArr items => Ok (existsb (fun x => strict_eq_str x needle) items)
  | _ => Throw (not_a_function (expr ++ ".includes"))
  end.

(** *** [parseInt] *)

(** [WhiteSpace] and [LineTerminator] code points, as UTF-8 byte strings. *)
Definition utf8 (bytes : list nat) : string :=
  fold_right (fun b s => String (ascii_of_nat b) s) EmptyString bytes.

Definition white_space : list string :=
  map utf8
    [ [9]; [10]; [11]; [12]; [13]; [32]; [194; 160]; [225; 154; 128];
      [226; 128; 128]; [226; 128; 129]; [226; 128; 130]; [226; 128; 131];
      [226; 128; 132]; [226; 128; 133]; [226; 128; 134]; [226; 128; 135];
      [226; 128; 136]; [226; 128; 137]; [226; 128; 138]; [226; 128; 168];
      [226; 128; 169]; [226; 128; 175]; [226; 129; 159]; [227; 128; 128];
      [239; 187; 191] ]%nat.

Fixpoint drop (n : nat) (s : string) : string :=
  match n, s with
  | O, _ => s
  | S _, EmptyString => EmptyString
  | S n', String _ rest => drop n' rest
  end.

(** One white-space code point stripped from the front, if there is one. *)
Definition strip_one (s : string) : option string :=
  match find (fun w => prefix w s) white_space with
  | Some w => Some (drop (String.length w) s)
  | None => None
  end.

Fixpoint trim_start (fuel : nat) (s : string) : string :=
  match fuel with
  | O => s
  | S fuel' =>
      match strip_one s with
      | Some rest => trim_start fuel' rest
      | None => s
      end
  end.

(** The value of a digit in the given radix. *)
Definition digit_value (radix : Z) (c : ascii) : option Z :=
  let n := Z.of_nat (nat_of_ascii c) in
  let d :=
    if (48 <=? n) && (n <=? 57) then Some (n - 48)
    else if (97 <=? n) && (n <=? 122) then Some (n - 87)
    else if (65 <=? n) && (n <=? 90) then Some (n - 55)
    else None in
  match d with
  | Some k => if k <? radix then Some k else None
  | None => None
  end.

(** The longest prefix of digits, read as a number; [None] when empty. *)
Fixpoint digits (radix : Z) (acc : option Z) (s : string) : option Z :=
  match s with
  | EmptyString => acc
  | String c rest =>
      match digit_value radix c with
      | Some d =>
          digits radix
            (Some (match acc with Some a => a * radix + d | None => d end)) rest
      | None => acc
      end
  end.

(** [parseInt(s)] without a radix; [None] is [NaN]. *)
Definition parseInt (s : string) : option Z :=
  let s1 := trim_start (String.length s) s in
  let '(sign, s2) :=
    match s1 with
    | String "-" rest => (-1, rest)
    | String "+" rest => (1, rest)
    | _ => (1, s1)
    end in
  let '(radix, s3) :=
    match s2 with
    | String "0" (String "x" rest) => (16, rest)
    | String "0" (String "X" rest) => (16, rest)
    | _ => (10, s2)
    end in
  match digits radix None s3 with
  | Some n => Some (sign * n)
  | None => None
  end.

(** [parseInt(s) || d]: [NaN] and [0] are falsy. *)
Definition parseInt_or (s : string) (d : Z) : Z :=
  match parseInt s with
  | Some n => if n =? 0 then d else n
  | None => d
  end.

(** *** Calls to the outside

    A handler that talks to a collaborator is a computation that leaves the
    list of the calls it made, in order, next to its result. *)
Definition Eff (E A : Type) : Type := (list E * Result A)%type.

Definition ret {E A : Type} (a : A) : Eff E A := ([], Ok a).

Definition throw {E A : Type} (e : Thrown) : Eff E A := ([], Throw e).

Definition emit {E : Type} (ev : E) : Eff E unit := ([ev], Ok tt).

Definition lift {E A : Type} (m : Result A) : Eff E A := ([], m).

Definition ebind {E A B : Type} (m : Eff E A) (k : A -> Eff E B) : Eff E B :=
  match m with
  | (tr, Ok a) => let '(tr', r) := k a in ((tr ++ tr')%list, r)
  | (tr, Throw e) => (tr, Throw e)
  end.

Notation "x <~ m ;; k" := (ebind m (fun x => k))
  (at level 61, m at next level, right associativity).
Notation "m ;;; k" := (ebind m (fun _ => k))
  (at level 61, right associativity).

End Js.

(** ** The tool handlers of [src/index.ts] *)

Module Tools.
Import Js.

(** The adapter object [this.cmpClient]: its methods return the upstream
    response or throw. *)
Record CMPClient : Type := {
  querySimList : JsVal -> Result JsVal;
  querySimDetail : JsVal -> Result JsVal;
  querySimMonthData : JsVal -> Result JsVal;
  queryEuiccPage : JsVal -> Result JsVal;
  formatDataUsage : JsVal -> Result string
}.

(** The label functions [index.ts] imports from [cmp_client.js] for the
    embedded-profile list; they stay parameters. *)
Class ProfileLabels : Type := {
  getProfileStatusName : JsVal -> Result string;
  getProfileTypeName : JsVal -> Result string
}.

(** Modelled from the spec: [getStateName] lives in [cmp_client.js], which
    is not among the sources.  Section 4.4 asks for a fixed code-to-label
    table with ["Unknown (<code>)"] for a code that is not in it; the labels
    are those the [simState] parameter of [query_sim_list] documents. *)
Definition stateMap : list (Z * string) :=
  [ (2, "Pre-activation"); (3, "Test"); (4, "Silent"); (5, "Standby");
    (6, "Active"); (7, "Shutdown"); (8, "Pause"); (10, "Pre-logout");
    (11, "Logout") ].

Fixpoint assocZ (n : Z) (table : list (Z * string)) : option string :=
  match table with
  | [] => None
  | (k, label) :: rest => if k =? n then Some label else assocZ n rest
  end.

(** Modelled from the spec: see [stateMap]. *)
Definition getStateName (state : JsVal) : Result string :=
  match state with
  | JNum n =>
      match assocZ n stateMap with
      | Some label => Ok label
      | None => Ok ("Unknown (" ++ num_to_string n ++ ")")
      end
  | _ => s <- ToString state ;; Ok ("Unknown (" ++ s ++ ")")
  end.

(** The content envelope a handler returns. *)
Record ContentBlock : Type := { type : string; text : string }.
Record ToolResult : Type := { content : list ContentBlock }.

(** [{ content: [{ type: "text", text }] }] *)
Definition text_result (t : string) : ToolResult :=
  {| content := [ {| type := "text"; text := t |} ] |}.

(** [error instanceof Error ? error.message : "Unknown error"] *)
Definition error_message (e : Thrown) : string :=
  match e with
  | JsError message => message
  | NonError _ => "Unknown error"
  end.

(** [try { body } catch (error) { return text(prefix + message) }] *)
Definition try_catch (body : Result ToolResult) (prefix : string) : ToolResult :=
  match body with
  | Ok r => r
  | Throw e => text_result (prefix ++ error_message e)
  end.

(** One [result += `label${value}\n`]. *)
Definition row (label : string) (value : Result string) : Result string :=
  tpl [lit label; value; lit nl].

(** The [else] branch every handler shares. *)
Definition query_failed (response : JsVal) : Result ToolResult :=
  t <- tpl [lit "❌ Query failed: "; sub_or (get response "msg") "Unknown error"] ;;
  Ok (text_result t).

(** [index + 1], printed. *)
Definition ordinal (index : nat) : string := num_to_string (Z.of_nat index + 1).

Section Handlers.
Context `{Engine} `{ProfileLabels}.
Variable cmpClient : CMPClient.

(** *** query_sim_list *)

Definition sim_list_entry (sim : JsVal) (index : nat) : Result string :=
  tpl [ lit nl; lit (ordinal index);
        row ". 📱 ICCID: " (sub_or (get sim "iccid") "N/A");
        row "   ├─ IMSI: " (sub_or (get sim "imsi") "N/A");
        row "   ├─ MSISDN: " (sub_or (get sim "msisdn") "N/A");
        row "   ├─ Status: "
          (v <- get sim "simState" ;; getStateName (js_or v (JNum 0)));
        row "   ├─ Card Type: " (sub_or (get sim "simType") "N/A");
        row "   ├─ Enterprise: " (sub_or (get sim "enterprise") "N/A");
        row "   ├─ Data Plan: " (sub_or (get sim "enterpriseDataPlan") "N/A");
        row "   ├─ Activation Time: " (sub_or (get sim "activationTime") "N/A");
        row "   ├─ Expiration Time: " (sub_or (get sim "expirationTime") "N/A");
        row "   └─ Label: " (sub_or (get sim "label") "None") ].

(** The success test of [query_sim_list] and [query_sim_detail]:
    [response.code === 200]. *)
Definition strict_success (response : JsVal) : Result bool :=
  code <- get response "code" ;; Ok (strict_eq_num code 200).

Definition sim_list_success (response : JsVal) : Result ToolResult :=
  data <- get response "data" ;;
  list <- get data "list" ;;
  let simList := js_or list (JArr []) in
  head <- tpl [ lit "📊 SIM Query Results"; lit nl;
                row "├─ Current Page: " (sub (get data "current"));
                row "├─ Page Size: " (sub (get data "size"));
                row "├─ Total Pages: " (sub (get data "pages"));
                row "├─ Total Records: " (sub (get data "total")); lit nl ] ;;
  len <- get simList "length" ;;
  some <- gt_zero len ;;
  body <- (if some : bool then
             tpl [ lit "🔍 Found "; sub (get simList "length");
                   lit " SIM cards:"; lit nl;
                   forEach "simList" simList sim_list_entry ]
           else lit "❌ No SIM cards found matching the criteria") ;;
  Ok (text_result (head ++ body)).

Definition query_sim_list (params : JsVal) : ToolResult :=
  try_catch
    (response <- querySimList cmpClient params ;;
     ok <- strict_success response ;;
     if ok : bool then sim_list_success response else query_failed response)
    "❌ Failed to query SIM list: ".

(** *** query_sim_detail *)

(** [typeof dataUsage === "string" ? parseInt(dataUsage) || 0 : dataUsage] *)
Definition usage_amount (dataUsage : JsVal) : JsVal :=
  match dataUsage with
  | JStr s => JNum (parseInt_or s 0)
  | _ => dataUsage
  end.

Definition sim_detail_success (response : JsVal) : Result ToolResult :=
  sim <- get response "data" ;;
  head <- tpl [ lit "📱 SIM Card Details"; lit nl;
                row "├─ SIM ID: " (sub_or (get sim "simId") "N/A");
                row "├─ ICCID: " (sub_or (get sim "iccid") "N/A");
                row "├─ MSISDN: " (sub_or (get sim "msisdn") "N/A");
                row "├─ IMEI: " (sub_or (get sim "imei") "N/A");
                row "├─ IMSI: " (sub_or (get sim "imsi") "N/A");
                row "├─ Enterprise: " (sub_or (get sim "enterprise") "N/A");
                row "├─ Label: " (sub_or (get sim "label") "None");
                row "├─ Status: "
                  (v <- get sim "simState" ;; getStateName (js_or v (JNum 0)));
                row "├─ State Change Reason: "
                  (sub_or (get sim "simStateChangeReason") "N/A");
                row "├─ Country/Region: " (sub_or (get sim "countryRegion") "N/A");
                row "├─ Operator Network: "
                  (sub_or (get sim "operatorNetwork") "N/A");
                row "├─ Enterprise Data Plan: "
                  (sub_or (get sim "enterpriseDataPlan") "N/A");
                row "├─ Network Type: " (sub_or (get sim "networkType") "N/A");
                row "├─ Card Type: " (sub_or (get sim "simType") "N/A");
                row "├─ APN: " (sub_or (get sim "apn") "N/A");
                row "├─ RAT: " (sub_or (get sim "rat") "N/A");
                row "├─ Initial Time: " (sub_or (get sim "initialTime") "N/A");
                row "├─ Activation Time: "
                  (sub_or (get sim "activationTime") "N/A");
                row "├─ Expiration Time: "
                  (sub_or (get sim "expirationTime") "N/A");
                row "├─ Last Session Time: "
                  (sub_or (get sim "lastSessionTime") "N/A") ] ;;
  used <- get sim "usedDataOfCurrentPeriod" ;;
  let dataUsage := js_or used (JNum 0) in
  let usage := usage_amount dataUsage in
  formattedUsage <- formatDataUsage cmpClient usage ;;
  last <- row "└─ Current Period Data Usage: " (lit formattedUsage) ;;
  Ok (text_result (head ++ last)).

Definition query_sim_detail (iccid : JsVal) : ToolResult :=
  try_catch
    (response <- querySimDetail cmpClient iccid ;;
     ok <- strict_success response ;;
     if ok : bool then sim_detail_success response else query_failed response)
    "❌ Failed to query SIM details: ".

(** *** query_sim_usage *)

(** The success test of [query_sim_usage] and [query_euicc_list]:
    [response.code === 200 || (response.data && typeof response.data === "object")]. *)
Definition lenient_success (response : JsVal) : Result bool :=
  code <- get response "code" ;;
  if strict_eq_num code 200 then Ok true
  else
    data <- get response "data" ;;
    if truthy data then
      data' <- get response "data" ;; Ok (typeof data' =? "object")%string
    else Ok false.

Definition typeMap : list (string * string) :=
  [ ("1", "Activation Period Plan"); ("2", "Test Period Plan");
    ("3", "Data Package") ].

Fixpoint assoc (key : string) (table : list (string * string)) : option string :=
  match table with
  | [] => None
  | (k, label) :: rest => if (k =? key)%string then Some label else assoc key rest
  end.

(** [typeMap[detail.type] || `Type ${detail.type}`]: the key is the printed
    [detail.type]; a key the literal does not own may still name a member
    inherited from [Object.prototype], which is truthy. *)
Definition typeName (detail : JsVal) : Result string :=
  ty <- get detail "type" ;;
  key <- ToString ty ;;
  match assoc key typeMap with
  | Some label => Ok label
  | None =>
      match Object_prototype_text key with
      | Some inherited => Ok inherited
      | None => tpl [lit "Type "; sub (get detail "type")]
      end
  end.

Definition usage_detail_entry (detail : JsVal) (index : nat) : Result string :=
  name <- typeName detail ;;
  tpl [ lit nl; lit (ordinal index);
        row ". 📦 " (sub (get detail "orderName"));
        row "   ├─ Type: " (lit name);
        tpl [ lit "   ├─ Allowance: "; sub (get detail "dataAllowance");
              lit " MB"; lit nl ];
        tpl [ lit "   ├─ Used: "; sub (get detail "dataUsage"); lit " MB"; lit nl ];
        tpl [ lit "   └─ Outside Region: ";
              sub (get detail "outsideRegionDataUsage"); lit " MB"; lit nl ] ].

Definition sim_usage_success (response : JsVal) : Result ToolResult :=
  usage <- get response "data" ;;
  head <- tpl [ lit "📊 SIM Usage Details"; lit nl;
                row "├─ ICCID: " (sub (get usage "iccid"));
                row "├─ Month: " (sub (get usage "month"));
                tpl [ lit "├─ Total Data Allowance: ";
                      sub (get usage "totalDataAllowance"); lit " MB"; lit nl ];
                tpl [ lit "├─ Total Data Usage: ";
                      sub (get usage "totalDataUsage"); lit " MB"; lit nl ];
                tpl [ lit "├─ Remaining Data: ";
                      sub (get usage "remainingData"); lit " MB"; lit nl ];
                tpl [ lit "├─ Outside Region Usage: ";
                      sub (get usage "outsideRegionDataUsage"); lit " MB";
                      lit nl; lit nl ] ] ;;
  details <- get usage "dataUsageDetails" ;;
  some <- (if truthy details then
             d <- get usage "dataUsageDetails" ;;
             len <- get d "length" ;; gt_zero len
           else Ok false) ;;
  body <- (if some : bool then
             tpl [ lit "📋 Usage Details:"; lit nl;
                   d <- get usage "dataUsageDetails" ;;
                   forEach "usage.dataUsageDetails" d usage_detail_entry ]
           else lit "❌ No detailed usage data available") ;;
  Ok (text_result (head ++ body)).

Definition query_sim_usage (iccid month : JsVal) : ToolResult :=
  try_catch
    (response <- querySimMonthData cmpClient
                   (JObj [("iccid", iccid); ("month", month)]) ;;
     ok <- lenient_success response ;;
     if ok : bool then sim_usage_success response else query_failed response)
    "❌ Failed to query SIM usage: ".

(** *** query_euicc_list *)

Definition euicc_entry (euicc : JsVal) (index : nat) : Result string :=
  tpl [ lit nl; lit (ordinal index); lit ". 📱 eUICC Device"; lit nl;
        row "   ├─ eID: " (sub_or (get euicc "eid") "N/A");
        row "   ├─ ICCID: " (sub_or (get euicc "iccid") "N/A");
        row "   ├─ IMEI: " (sub_or (get euicc "imei") "N/A");
        row "   ├─ Enterprise: " (sub_or (get euicc "enterpriseName") "N/A");
        row "   ├─ Profile Number: " (sub_or (get euicc "profileNum") "N/A");
        row "   ├─ Profile Status: "
          (v <- get euicc "profileStatus" ;;
           getProfileStatusName (js_or v (JNum 0)));
        row "   ├─ Profile Type: "
          (v <- get euicc "profileType" ;;
           getProfileTypeName (js_or v (JStr "0")));
        row "   └─ Last Operation: "
          (sub_or (get euicc "lastOperateTime") "N/A") ].

Definition euicc_list_success (response : JsVal) : Result ToolResult :=
  outer <- get response "data" ;;
  inner <- get outer "data" ;;
  data <- (if truthy inner then Ok inner else get response "data") ;;
  list <- get data "list" ;;
  let euiccList := js_or list (JArr []) in
  head <- tpl [ lit "📡 eUICC List Results"; lit nl;
                row "├─ Request ID: " (sub_or (get response "reqId") "N/A");
                row "├─ Current Page: " (sub_or (get data "current") "N/A");
                row "├─ Page Size: " (sub_or (get data "size") "N/A");
                row "├─ Total Pages: " (sub_or (get data "pages") "N/A");
                row "├─ Total Records: " (sub_or (get data "total") "N/A");
                lit nl ] ;;
  len <- get euiccList "length" ;;
  some <- gt_zero len ;;
  body <- (if some : bool then
             tpl [ lit "🔍 Found "; sub (get euiccList "length");
                   lit " eUICC devices:"; lit nl;
                   forEach "euiccList" euiccList euicc_entry ]
           else lit "❌ No eUICC devices found matching the criteria") ;;
  Ok (text_result (head ++ body)).

Definition query_euicc_list (params : JsVal) : ToolResult :=
  try_catch
    (response <- queryEuiccPage cmpClient params ;;
     ok <- lenient_success response ;;
     if ok : bool then euicc_list_success response else query_failed response)
    "❌ Failed to query eUICC list: ".

End Handlers.

(** *** Session initialisation: [MyMCP.init] *)

(** The variables [init] reads from the environment of the Durable Object. *)
Record Env : Type := {
  CMP_API_KEY : option string;
  CMP_API_SECRET : option string;
  CMP_API_ENDPOINT : option string
}.

Definition env_value (var : option string) : JsVal :=
  match var with
  | Some s => JStr s
  | None => JUndefined
  end.

(** What [init] does to the session: console output, the construction of
    the adapter, the registration of a tool with the server. *)
Inductive InitEvent : Type :=
| ConsoleError (line : string)
| ConsoleLog (args : list JsVal)
| NewCMPClient (apiKey apiSecret endpoint : JsVal)
| RegisterTool (name : string).

Definition configured (v : JsVal) : JsVal :=
  JStr (if truthy v then "✓" else "✗").

Definition init (env : Env) : Eff InitEvent unit :=
  let key := env_value (CMP_API_KEY env) in
  let secret := env_value (CMP_API_SECRET env) in
  let endpoint :=
    js_or (env_value (CMP_API_ENDPOINT env))
      (JStr "https://cmp.acceleronix.io/gateway/openapi") in
  if negb (truthy key) || negb (truthy secret) then
    emit (ConsoleError "❌ Missing CMP API credentials") ;;;
    throw (JsError "Missing required environment variables: CMP_API_KEY and CMP_API_SECRET must be set in Cloudflare Workers.")
  else
    emit (ConsoleLog [JStr "✅ Environment variables loaded successfully"]) ;;;
    emit (ConsoleLog [JStr "🔗 CMP Endpoint:"; endpoint]) ;;;
    emit (ConsoleLog [JStr "🔑 API Key configured:"; configured key]) ;;;
    emit (ConsoleLog [JStr "🔐 API Secret configured:"; configured secret]) ;;;
    emit (NewCMPClient key secret endpoint) ;;;
    emit (ConsoleLog [JStr "📡 CMP Client initialized successfully"]) ;;;
    emit (RegisterTool "query_sim_list") ;;;
    emit (RegisterTool "query_sim_detail") ;;;
    emit (RegisterTool "query_sim_usage") ;;;
    emit (RegisterTool "query_euicc_list").

(** The adapters constructed and the tools registered along a run. *)
Definition constructions (trace : list InitEvent) : list InitEvent :=
  filter (fun ev => match ev with NewCMPClient _ _ _ => true | _ => false end)
    trace.

Definition registered (trace : list InitEvent) : list string :=
  flat_map (fun ev => match ev with RegisterTool name => [name] | _ => [] end)
    trace.

End Tools.

(** ** The authorization routes of the Hono application *)

Module App.
Import Js.

(** The pages the routes answer with.  The templates ([layout] and the
    [render...] functions of [./utils]) are not among the sources, and
    rendering HTML is outside the specification; a page is kept as the
    template applied and its arguments. *)
Record Scope : Type := { name : string; description : string }.

Inductive Content : Type :=
| renderLoggedInAuthorizeScreen (scopes : list Scope) (oauthReqInfo : JsVal)
| renderLoggedOutAuthorizeScreen (scopes : list Scope) (oauthReqInfo : JsVal)
| renderAuthorizationRejectedContent (href : string)
| renderAuthorizationApprovedContent (redirectTo : string).

Inductive Html : Type :=
| layout (content : Content) (title : string)
| raw (body : string).

(** [c.html(body, status)] and [c.redirect(location, status)]. *)
Inductive Response : Type :=
| html (body : Html) (status : Z)
| redirect (location : string) (status : Z).

(** The argument of [completeAuthorization]. *)
Record CompleteAuthorizationOptions : Type := {
  request : JsVal;
  userId : JsVal;
  metadata : JsVal;
  scope : JsVal;
  props : JsVal
}.

(** The binding [c.env.OAUTH_PROVIDER]: each operation returns or throws;
    [completeAuthorization] returns the [redirectTo] of its result. *)
Class OAuthHelpers : Type := {
  Request : Type;
  parseAuthRequest : Request -> Result JsVal;
  completeAuthorization : CompleteAuthorizationOptions -> Result string
}.

(** The calls a route makes to the grant store. *)
Inductive Call : Type :=
| CompleteAuthorization (options : CompleteAuthorizationOptions).

(** What [parseApproveFormBody] hands to the route. *)
Record ApproveForm : Type := {
  action : JsVal;
  oauthReqInfo : JsVal;
  email : JsVal;
  password : JsVal
}.

Definition oauthScopes : list Scope :=
  [ {| name := "read_profile";
       description := "Read your basic profile information" |};
    {| name := "read_data"; description := "Access your stored data" |};
    {| name := "write_data"; description := "Create and modify your data" |} ].

(** [redirectUri && (redirectUri.includes('claude.ai') || redirectUri.includes('mcp'))] *)
Definition programmatic_client (redirectUri : JsVal) : Result bool :=
  if truthy redirectUri then
    claude <- js_includes "redirectUri" redirectUri "claude.ai" ;;
    if claude : bool then Ok true
    else js_includes "redirectUri" redirectUri "mcp"
  else Ok false.

Definition status_title : string := "CMP MCP Server - Authorization Status".
Definition authorize_title : string := "MCP Remote Auth Demo - Authorization".

Section Routes.
Context `{OAuthHelpers}.

(** *** GET /authorize *)

(** The body of the route for either value of its constant [isLoggedIn]. *)
Definition authorize_page (isLoggedIn : bool) (req : Request) : Result Response :=
  oauthReqInfo <- parseAuthRequest req ;;
  if isLoggedIn then
    Ok (html (layout (renderLoggedInAuthorizeScreen oauthScopes oauthReqInfo)
                authorize_title) 200)
  else
    Ok (html (layout (renderLoggedOutAuthorizeScreen oauthScopes oauthReqInfo)
                authorize_title) 200).

(** [const isLoggedIn = true;] *)
Definition isLoggedIn : bool := true.

Definition authorize (req : Request) : Result Response :=
  authorize_page isLoggedIn req.

(** *** POST /approve *)

Definition reject (oauthReqInfo : JsVal) : Result Response :=
  redirectUri <- get oauthReqInfo "redirect_uri" ;;
  errorRedirect <-
    tpl [ sub (Ok redirectUri);
          lit "?error=access_denied&error_description=User+denied+authorization" ] ;;
  programmatic <- programmatic_client redirectUri ;;
  if programmatic : bool then Ok (redirect errorRedirect 302)
  else Ok (html (layout (renderAuthorizationRejectedContent "/") status_title) 200).

(** The credential check of [login_approve]: [if (false)]. *)
Definition login_refused (email password : JsVal) : bool := false.

Definition default_user : JsVal := JStr "user@example.com".

Definition complete (form : ApproveForm) : Eff Call Response :=
  let oauthReqInfo := oauthReqInfo form in
  scope <~ lift (get oauthReqInfo "scope") ;;
  let options :=
    {| request := oauthReqInfo;
       userId := js_or (email form) default_user;
       metadata := JObj [("label", JStr "CMP MCP User")];
       scope := scope;
       props := JObj [("userEmail", js_or (email form) default_user)] |} in
  emit (CompleteAuthorization options) ;;;
  redirectTo <~ lift (completeAuthorization options) ;;
  redirectUri <~ lift (get oauthReqInfo "redirect_uri") ;;
  programmatic <~ lift (programmatic_client redirectUri) ;;
  if programmatic : bool then ret (redirect redirectTo 302)
  else ret (html (layout (renderAuthorizationApprovedContent redirectTo)
                    status_title) 200).

Definition approve (form : ApproveForm) : Eff Call Response :=
  if negb (truthy (oauthReqInfo form)) then ret (html (raw "INVALID LOGIN") 401)
  else if strict_eq_str (action form) "reject" then lift (reject (oauthReqInfo form))
  else if strict_eq_str (action form) "login_approve"
          && login_refused (email form) (password form)
  then ret (html (layout (renderAuthorizationRejectedContent "/") status_title) 200)
  else complete form.

End Routes.
End App.

(** ** The vocabulary of the properties *)

Import Js Tools App.

(** A computation that, when it returns, returns one text block. *)
Definition one_text (m : Result ToolResult) : Prop :=
  match m with
  | Ok r => exists t, r = text_result t
  | Throw _ => True
  end.

(** What a handler returns when it reports a failure: the text of its
    [else] branch or of its [catch] clause. *)
Definition failure_message (prefix : string) (r : ToolResult) : Prop :=
  exists m, r = text_result ("❌ Query failed: " ++ m) \/ r = text_result (prefix ++ m).

(** [response.code === 200], for a response the handler can read. *)
Definition code_is_200 (response : JsVal) : bool :=
  match get response "code" with
  | Ok code => strict_eq_num code 200
  | Throw _ => false
  end.

(** A data object is present: [response.data] is truthy and its [typeof]
    is ["object"]. *)
Definition data_object_present (response : JsVal) : bool :=
  match get response "data" with
  | Ok data => truthy data && (typeof data =? "object")%string
  | Throw _ => false
  end.

Definition four_tools : list string :=
  ["query_sim_list"; "query_sim_detail"; "query_sim_usage"; "query_euicc_list"].

Definition missing_credentials : Thrown :=
  JsError "Missing required environment variables: CMP_API_KEY and CMP_API_SECRET must be set in Cloudflare Workers.".

Definition endpoint_of (env : Env) : JsVal :=
  js_or (env_value (CMP_API_ENDPOINT env))
    (JStr "https://cmp.acceleronix.io/gateway/openapi").

(** Fail-fast initialisation in terms of presence alone, where present
    means set in the environment: a missing key or secret makes [init] throw
    with nothing constructed or registered, and a key and a secret that are
    both set make it construct one adapter and register the four tools. *)
Definition init_by_presence (env : Env) : Prop :=
  (CMP_API_KEY env = None \/ CMP_API_SECRET env = None ->
     (exists e, snd (init env) = Throw e) /\
     constructions (fst (init env)) = [] /\
     registered (fst (init env)) = [])
  /\
  (CMP_API_KEY env <> None /\ CMP_API_SECRET env <> None ->
     List.length (constructions (fst (init env))) = 1%nat /\
     registered (fst (init env)) = four_tools).

(** The markers of an automated client in a redirect URI. *)
Definition has_marker (uri : string) : bool :=
  includes "claude.ai" uri || includes "mcp" uri.

Definition error_query : string :=
  "?error=access_denied&error_description=User+denied+authorization".

Definition rejected_page : Response :=
  html (layout (renderAuthorizationRejectedContent "/") status_title) 200.

Definition approved_page (redirectTo : string) : Response :=
  html (layout (renderAuthorizationApprovedContent redirectTo) status_title) 200.

(** [v.key] of a value that is not nullish. *)
Definition property (v : JsVal) (key : string) : JsVal :=
  match get v key with
  | Ok x => x
  | Throw _ => JUndefined
  end.

(** The grant the route asks the store to complete. *)
Definition grant_options (form : ApproveForm) : CompleteAuthorizationOptions :=
  {| request := oauthReqInfo form;
     userId := js_or (email form) default_user;
     metadata := JObj [("label", JStr "CMP MCP User")];
     scope := property (oauthReqInfo form) "scope";
     props := JObj [("userEmail", js_or (email form) default_user)] |}.


(** A truthy value that has no [includes] method: neither a string nor an
    array. *)
Definition lacks_includes (v : JsVal) : bool :=
  truthy v &&
  match v with
  | JStr _ | JArr _ => false
  | _ => true
  end.

(** Everything a run of [init] hands to [console.error] or [console.log]. *)
Definition console_values (trace : list InitEvent) : list JsVal :=
  flat_map (fun ev => match ev with
                      | ConsoleError line => [JStr line]
                      | ConsoleLog args => args
                      | _ => []
                      end) trace.

(** The string literals of the console calls of [init]. *)
Definition init_literals : list JsVal :=
  map JStr
    [ "❌ Missing CMP API credentials";
      "✅ Environment variables loaded successfully";
      "🔗 CMP Endpoint:"; "🔑 API Key configured:"; "✓"; "✗";
      "🔐 API Secret configured:"; "📡 CMP Client initialized successfully" ].

Definition default_endpoint : string :=
  "https://cmp.acceleronix.io/gateway/openapi".

(** [undefined] and [null]. *)
Definition nullish (v : JsVal) : bool :=
  match v with
  | JUndefined | JNull => true
  | _ => false
  end.

(** How the engine names a nullish value in its messages. *)
Definition nullish_word (v : JsVal) : string :=
  match v with
  | JNull => "null"
  | _ => "undefined"
  end.

(** The detail a failure text reports for the [msg] of a response: the
    message when it is a string that is not empty, ["Unknown error"] when
    it is falsy. *)
Definition reported (msg : JsVal) (detail : string) : Prop :=
  (msg = JStr detail /\ detail <> "") \/
  (truthy msg = false /\ detail = "Unknown error").

(** The records of a list with the index [forEach] passes along, counted
    from [start]. *)
Definition indexed (start : nat) (items : list JsVal) : list (JsVal * nat) :=
  combine items (seq start (List.length items)).

(** The text [t] begins with [p]. *)
Definition starts_with (p t : string) : Prop := exists rest, t = p ++ rest.

(** ** Sample collaborators and inputs *)

(** An engine that reads decimal strings and knows two inherited members. *)
Definition sample_engine : Engine :=
  {| StringToNumber_positive :=
       fun s => match digits 10 None s with Some n => 0 <? n | None => false end;
     Object_prototype_text :=
       fun key =>
         if (key =? "__proto__")%string then Some "[object Object]"
         else if (key =? "constructor")%string
              then Some "function Object() { [native code] }"
              else None |}.

Definition sample_labels : ProfileLabels :=
  {| getProfileStatusName := fun v => s <- ToString v ;; Ok ("Status " ++ s);
     getProfileTypeName := fun v => s <- ToString v ;; Ok ("Type " ++ s) |}.

(** An adapter whose four queries answer through [answer]. *)
Definition sample_client (answer : JsVal -> Result JsVal) : CMPClient :=
  {| querySimList := answer;
     querySimDetail := answer;
     querySimMonthData := answer;
     queryEuiccPage := answer;
     formatDataUsage := fun v => s <- ToString v ;; Ok (s ++ " B") |}.

Definition usage_report : JsVal :=
  JObj [ ("iccid", JStr "8986001"); ("month", JStr "202301");
         ("totalDataAllowance", JNum 1000); ("totalDataUsage", JNum 200);
         ("remainingData", JNum 800); ("outsideRegionDataUsage", JNum 0);
         ("dataUsageDetails", JArr []) ].

(** A response with a data object and a code that is not the success code. *)
Definition odd_response : JsVal :=
  JObj [("code", JNum 500); ("msg", JStr "busy"); ("data", usage_report)].

Definition sim_fields (used : JsVal) : list (string * JsVal) :=
  [ ("iccid", JStr "8986001"); ("simState", JNum 6);
    ("usedDataOfCurrentPeriod", used) ].

Definition detail_response (used : JsVal) : JsVal :=
  JObj [("code", JNum 200); ("data", JObj (sim_fields used))].

(** Answers the ICCID ["A"] with the usage as a string and any other with
    the usage as a number. *)
Definition detail_answer (iccid : JsVal) : Result JsVal :=
  if strict_eq_str iccid "A" then Ok (detail_response (JStr "2048"))
  else Ok (detail_response (JNum 2048)).

Definition claude_request : JsVal :=
  JObj [ ("client_id", JStr "client-1");
         ("redirect_uri", JStr "https://claude.ai/callback?state=xyz");
         ("scope", JArr [JStr "read_data"]) ].

Definition browser_request : JsVal :=
  JObj [ ("client_id", JStr "client-2");
         ("redirect_uri", JStr "https://example.com/cb");
         ("scope", JArr [JStr "read_profile"]) ].

Definition sample_store : OAuthHelpers :=
  {| Request := string;
     parseAuthRequest := fun _ => Ok claude_request;
     completeAuthorization :=
       fun _ => Ok "https://claude.ai/callback?code=abc&state=xyz" |}.

Definition form_of (action request email : JsVal) : ApproveForm :=
  {| action := action; oauthReqInfo := request; email := email;
     password := JUndefined |}.

(** A grant store whose completion call fails. *)
Definition failing_store : OAuthHelpers :=
  {| Request := string;
     parseAuthRequest := fun _ => Ok claude_request;
     completeAuthorization := fun _ => Throw (JsError "KV unavailable") |}.

Definition numeric_uri_request : JsVal :=
  JObj [("client_id", JStr "client-3"); ("redirect_uri", JNum 7)].

(** A success code with nothing else. *)
Definition bare_success : JsVal := JObj [("code", JNum 200)].

Definition rate_limited : JsVal :=
  JObj [("code", JNum 429); ("msg", JStr "Rate limit exceeded")].

(** Answers the ICCID ["A"] with the usage report under an error code and
    any other with the same report under the success code. *)
Definition usage_answer (query : JsVal) : Result JsVal :=
  if strict_eq_str (property query "iccid") "A" then Ok odd_response
  else Ok (JObj [("code", JNum 200); ("data", usage_report)]).

Definition euicc_page : list (string * JsVal) :=
  [ ("current", JNum 1); ("size", JNum 10); ("pages", JNum 1); ("total", JNum 1);
    ("list", JArr [JObj [("eid", JStr "89049032"); ("profileStatus", JNum 5)]]) ].

(** Answers page 1 with the page under [data] and any other page with the
    page under [data.data]. *)
Definition euicc_answer (params : JsVal) : Result JsVal :=
  if strict_eq_num (property params "pageNum") 1
  then Ok (JObj [("code", JNum 200); ("data", JObj euicc_page)])
  else Ok (JObj [("data", JObj [("code", JNum 200); ("data", JObj euicc_page)])]).

Definition page_of (records : JsVal) : list (string * JsVal) :=
  [ ("current", JNum 1); ("size", JNum 10); ("pages", JNum 1); ("total", JNum 2);
    ("list", records) ].

Definition page_response (records : JsVal) : JsVal :=
  JObj [("code", JNum 200); ("data", JObj (page_of records))].

Definition two_sims : list JsVal :=
  [ JObj (sim_fields (JNum 0)); JObj [("iccid", JStr "8986002")] ].

(** Answers the ICCID ["A"] through [first] and any other through
    [second]. *)
Definition answer_by_iccid (first second : JsVal) (iccid : JsVal)
    : Result JsVal :=
  if strict_eq_str iccid "A" then Ok first else Ok second.

(** An adapter that formats numbers only. *)
Definition strict_formatter (answer : JsVal -> Result JsVal) : CMPClient :=
  {| querySimList := answer;
     querySimDetail := answer;
     querySimMonthData := answer;
     queryEuiccPage := answer;
     formatDataUsage :=
       fun v => match v with
                | JStr _ | JUndefined | JNull =>
                    Throw (JsError "bytes must be a number")
                | _ => s <- ToString v ;; Ok (s ++ " B")
                end |}.

(** ** Properties *)

(** *** The error monad and templates *)

Lemma bind_Ok {A B : Type} (m : Result A) (k : A -> Result B) (b : B) :
  bind m k = Ok b -> exists a, m = Ok a /\ k a = Ok b.
Proof.
  destruct m as [a | e]; cbn; intros E; [eauto | discriminate].
Qed.

Lemma tpl_cons_Ok (p : Result string) (rest : list (Result string)) (t : string) :
  tpl (p :: rest) = Ok t ->
  exists a b, p = Ok a /\ tpl rest = Ok b /\ t = a ++ b.
Proof.
  cbn [tpl]. intros E.
  apply bind_Ok in E as (a & Ea & E).
  apply bind_Ok in E as (b & Eb & E).
  injection E as <-. eauto.
Qed.

Lemma row_Ok (label : string) (value : Result string) (t : string) :
  row label value = Ok t -> exists v, value = Ok v /\ t = label ++ v ++ nl.
Proof.
  unfold row. intros E.
  apply tpl_cons_Ok in E as (a & b & Ea & E & ->).
  apply tpl_cons_Ok in E as (v & c & Ev & E & ->).
  injection Ea as <-. cbn in E. injection E as <-.
  exists v. split; [assumption | reflexivity].
Qed.

Lemma append_assoc (a b c : string) : (a ++ b) ++ c = a ++ b ++ c.
Proof.
  induction a as [| ch a IH]; cbn; [reflexivity | now rewrite IH].
Qed.

(** *** Envelopes *)

Lemma one_text_bind {A : Type} (m : Result A) (k : A -> Result ToolResult) :
  (forall a, one_text (k a)) -> one_text (bind m k).
Proof.
  intros Hk. destruct m as [a | e]; cbn; [apply Hk | exact I].
Qed.

Lemma one_text_if (b : bool) (m1 m2 : Result ToolResult) :
  one_text m1 -> one_text m2 -> one_text (if b then m1 else m2).
Proof. destruct b; auto. Qed.

Lemma one_text_Ok (t : string) : one_text (Ok (text_result t)).
Proof. cbn. eauto. Qed.

Lemma try_catch_one_text (m : Result ToolResult) (prefix : string) :
  one_text m -> exists t, try_catch m prefix = text_result t.
Proof.
  destruct m as [r | e]; cbn; intros Hm; [exact Hm | eauto].
Qed.

Ltac one_text_steps :=
  repeat first
    [ apply one_text_Ok
    | apply one_text_if
    | apply one_text_bind; intros ].

Section ToolProperties.
Context `{Engine} `{ProfileLabels}.
Variable c : CMPClient.

Lemma query_failed_one_text (response : JsVal) : one_text (query_failed response).
Proof. unfold query_failed. one_text_steps. Qed.

Lemma sim_list_success_one_text (response : JsVal) :
  one_text (sim_list_success response).
Proof. unfold sim_list_success. one_text_steps. Qed.

Lemma sim_detail_success_one_text (response : JsVal) :
  one_text (sim_detail_success c response).
Proof. unfold sim_detail_success. one_text_steps. Qed.

Lemma sim_usage_success_one_text (response : JsVal) :
  one_text (sim_usage_success response).
Proof. unfold sim_usage_success. one_text_steps. Qed.

Lemma euicc_list_success_one_text (response : JsVal) :
  one_text (euicc_list_success response).
Proof. unfold euicc_list_success. one_text_steps. Qed.

End ToolProperties.

Section Classification.
Context `{Engine} `{ProfileLabels}.
Variable c : CMPClient.

Lemma data_object_present_iff (response : JsVal) :
  data_object_present response = true <->
  exists data, get response "data" = Ok data /\
    ((exists fields, data = JObj fields) \/ (exists items, data = JArr items)).
Proof.
  unfold data_object_present. split.
  - destruct (get response "data") as [data | e]; [| discriminate].
    intros E. exists data. split; [reflexivity |].
    destruct data; cbn in E; try discriminate; eauto;
      rewrite andb_false_r in E; discriminate.
  - intros (data & -> & [[fields ->] | [items ->]]); reflexivity.
Qed.

Lemma strict_success_spec (response : JsVal) :
  strict_success response =
  (_ <- object_coercible response "code" ;; Ok (code_is_200 response)).
Proof.
  unfold strict_success, code_is_200, get.
  destruct (object_coercible response "code") as [[] | e]; reflexivity.
Qed.

Lemma lenient_success_spec (response : JsVal) :
  lenient_success response =
  (_ <- object_coercible response "code" ;;
   Ok (code_is_200 response || data_object_present response)).
Proof.
  unfold lenient_success, code_is_200, data_object_present.
  destruct response; try reflexivity; cbn;
    match goal with
    | |- context [strict_eq_num ?v 200] => destruct (strict_eq_num v 200)
    | _ => idtac
    end; cbn; try reflexivity;
    match goal with
    | |- context [truthy ?v] => destruct (truthy v)
    | _ => idtac
    end; reflexivity.
Qed.

Lemma failed_branch (prefix : string) (response : JsVal) :
  failure_message prefix (try_catch (query_failed response) prefix).
Proof.
  unfold query_failed.
  destruct (tpl [lit "❌ Query failed: "; sub_or (get response "msg") "Unknown error"])
    as [t | e] eqn:E; cbn.
  - apply tpl_cons_Ok in E as (a & b & Ea & _ & ->).
    injection Ea as <-. exists b. now left.
  - exists (error_message e). now right.
Qed.

(** How a handler with the strict test answers a response. *)
Lemma strict_handler (prefix : string) (response : JsVal)
    (success : Result ToolResult) :
  let answer :=
    try_catch (ok <- strict_success response ;;
               if ok : bool then success else query_failed response) prefix in
  (code_is_200 response = true -> answer = try_catch success prefix) /\
  (code_is_200 response = false -> failure_message prefix answer).
Proof.
  cbn zeta. rewrite strict_success_spec.
  destruct (object_coercible response "code") as [[] | e] eqn:E; cbn [bind].
  - split; intros ->; [reflexivity | apply failed_branch].
  - split.
    + unfold code_is_200, get. rewrite E. discriminate.
    + intros _. exists (error_message e). now right.
Qed.

(** How a handler with the lenient test answers a response. *)
Lemma lenient_handler (prefix : string) (response : JsVal)
    (success : Result ToolResult) :
  let answer :=
    try_catch (ok <- lenient_success response ;;
               if ok : bool then success else query_failed response) prefix in
  (code_is_200 response || data_object_present response = true ->
     answer = try_catch success prefix) /\
  (code_is_200 response || data_object_present response = false ->
     failure_message prefix answer).
Proof.
  cbn zeta. rewrite lenient_success_spec.
  destruct (object_coercible response "code") as [[] | e] eqn:E; cbn [bind].
  - split; intros ->; [reflexivity | apply failed_branch].
  - split.
    + unfold code_is_200, data_object_present, get.
      destruct response; cbn in E; try discriminate; cbn; discriminate.
    + intros _. exists (error_message e). now right.
Qed.

(** C1.  The two status-code policies.  For the response [r] the adapter
    returns, [query_sim_list] and [query_sim_detail] run their success
    branch exactly when [r.code === 200]; [query_sim_usage] and
    [query_euicc_list] run it exactly when [r.code === 200] or [r.data] is a
    (non-null) object; in every other case the tool answers with a failure
    message. *)
Theorem status_code_policy (params iccid month : JsVal) :
  (forall r, querySimList c params = Ok r ->
     (code_is_200 r = true ->
        query_sim_list c params
        = try_catch (sim_list_success r) "❌ Failed to query SIM list: ") /\
     (code_is_200 r = false ->
        failure_message "❌ Failed to query SIM list: " (query_sim_list c params)))
  /\
  (forall r, querySimDetail c iccid = Ok r ->
     (code_is_200 r = true ->
        query_sim_detail c iccid
        = try_catch (sim_detail_success c r) "❌ Failed to query SIM details: ") /\
     (code_is_200 r = false ->
        failure_message "❌ Failed to query SIM details: "
          (query_sim_detail c iccid)))
  /\
  (forall r,
     querySimMonthData c (JObj [("iccid", iccid); ("month", month)]) = Ok r ->
     (code_is_200 r || data_object_present r = true ->
        query_sim_usage c iccid month
        = try_catch (sim_usage_success r) "❌ Failed to query SIM usage: ") /\
     (code_is_200 r || data_object_present r = false ->
        failure_message "❌ Failed to query SIM usage: "
          (query_sim_usage c iccid month)))
  /\
  (forall r, queryEuiccPage c params = Ok r ->
     (code_is_200 r || data_object_present r = true ->
        query_euicc_list c params
        = try_catch (euicc_list_success r) "❌ Failed to query eUICC list: ") /\
     (code_is_200 r || data_object_present r = false ->
        failure_message "❌ Failed to query eUICC list: "
          (query_euicc_list c params))).
Proof.
  unfold query_sim_list, query_sim_detail, query_sim_usage, query_euicc_list.
  split; [| split; [| split]]; intros r ->; cbn [bind];
    first [ apply strict_handler | apply lenient_handler ].
Qed.

End Classification.

Section Containment.
Context `{Engine} `{ProfileLabels}.
Variable c : CMPClient.

(** C4.  No tool handler throws: whatever the adapter does, each of the four
    handlers returns an envelope with exactly one block, of type text; and
    when the adapter call throws, that text is the handler's failure prefix
    followed by the message of the error. *)
Theorem handlers_contain_errors (params iccid month : JsVal) :
  ((exists t, query_sim_list c params
               = {| content := [ {| type := "text"; text := t |} ] |}) /\
   (exists t, query_sim_detail c iccid
               = {| content := [ {| type := "text"; text := t |} ] |}) /\
   (exists t, query_sim_usage c iccid month
               = {| content := [ {| type := "text"; text := t |} ] |}) /\
   (exists t, query_euicc_list c params
               = {| content := [ {| type := "text"; text := t |} ] |}))
  /\
  (forall e,
     (querySimList c params = Throw e ->
      query_sim_list c params
      = text_result ("❌ Failed to query SIM list: " ++ error_message e)) /\
     (querySimDetail c iccid = Throw e ->
      query_sim_detail c iccid
      = text_result ("❌ Failed to query SIM details: " ++ error_message e)) /\
     (querySimMonthData c (JObj [("iccid", iccid); ("month", month)]) = Throw e ->
      query_sim_usage c iccid month
      = text_result ("❌ Failed to query SIM usage: " ++ error_message e)) /\
     (queryEuiccPage c params = Throw e ->
      query_euicc_list c params
      = text_result ("❌ Failed to query eUICC list: " ++ error_message e))).
Proof.
  split.
  - unfold query_sim_list, query_sim_detail, query_sim_usage, query_euicc_list.
    repeat split; apply try_catch_one_text; one_text_steps;
      first [ apply query_failed_one_text
            | apply sim_list_success_one_text
            | apply sim_detail_success_one_text
            | apply sim_usage_success_one_text
            | apply euicc_list_success_one_text ].
  - intros e.
    unfold query_sim_list, query_sim_detail, query_sim_usage, query_euicc_list.
    repeat split; intros ->; reflexivity.
Qed.

End Containment.

Section DataUsage.
Variable c : CMPClient.

Lemma usage_amount_2048 :
  usage_amount (js_or (JStr "2048") (JNum 0)) = JNum 2048 /\
  usage_amount (js_or (JNum 2048) (JNum 0)) = JNum 2048.
Proof. split; reflexivity. Qed.

(** C8.  Two SIM records that agree on every property except that one has
    [usedDataOfCurrentPeriod] as the string ["2048"] and the other as the
    number [2048] are answered with the same envelope by [query_sim_detail];
    in both, [formatDataUsage] is applied to the number [2048], and a
    rendered answer ends with the data-usage line built from its result. *)
Theorem sim_detail_string_usage (iccid1 iccid2 r1 r2 : JsVal)
    (sim1 sim2 : list (string * JsVal)) :
  querySimDetail c iccid1 = Ok r1 ->
  querySimDetail c iccid2 = Ok r2 ->
  get r1 "code" = Ok (JNum 200) -> get r2 "code" = Ok (JNum 200) ->
  get r1 "data" = Ok (JObj sim1) -> get r2 "data" = Ok (JObj sim2) ->
  (forall key, key <> "usedDataOfCurrentPeriod" ->
     lookup key sim1 = lookup key sim2) ->
  lookup "usedDataOfCurrentPeriod" sim1 = JStr "2048" ->
  lookup "usedDataOfCurrentPeriod" sim2 = JNum 2048 ->
  query_sim_detail c iccid1 = query_sim_detail c iccid2 /\
  (forall t, sim_detail_success c r1 = Ok (text_result t) ->
     exists head formatted,
       formatDataUsage c (JNum 2048) = Ok formatted /\
       t = head ++ "└─ Current Period Data Usage: " ++ formatted ++ nl).
Proof.
  intros E1 E2 C1 C2 D1 D2 Agree U1 U2.
  assert (Hget : forall key, key <> "usedDataOfCurrentPeriod" ->
            get (JObj sim1) key = get (JObj sim2) key).
  { intros key Hkey. cbn. now rewrite (Agree key Hkey). }
  assert (G1 : get (JObj sim1) "usedDataOfCurrentPeriod" = Ok (JStr "2048")).
  { cbn. now rewrite U1. }
  assert (G2 : get (JObj sim2) "usedDataOfCurrentPeriod" = Ok (JNum 2048)).
  { cbn. now rewrite U2. }
  split.
  - unfold query_sim_detail. rewrite E1, E2. cbn [bind].
    unfold strict_success. rewrite C1, C2. cbn [bind strict_eq_num Z.eqb Pos.eqb].
    unfold sim_detail_success. rewrite D1, D2. cbn [bind].
    rewrite G1, G2. cbn [bind].
    repeat match goal with
           | |- context [get (JObj sim1) ?key] =>
               rewrite (Hget key) by discriminate
           end.
    reflexivity.
  - intros t E. unfold sim_detail_success in E. rewrite D1 in E. cbn [bind] in E.
    apply bind_Ok in E as (head & _ & E).
    rewrite G1 in E. cbn [bind] in E.
    change (usage_amount (js_or (JStr "2048") (JNum 0))) with (JNum 2048) in E.
    apply bind_Ok in E as (formatted & F & E).
    apply bind_Ok in E as (last & L & E).
    apply row_Ok in L as (v & V & ->). injection V as <-.
    injection E as <-. eauto.
Qed.

End DataUsage.

Lemma unmapped_state (n : Z) :
  assocZ n stateMap = None ->
  getStateName (JNum n) = Ok ("Unknown (" ++ num_to_string n ++ ")").
Proof. cbn [getStateName]. now intros ->. Qed.

(** The status line of an entry of the SIM list. *)
Lemma sim_list_entry_status (sim state : JsVal) (index : nat) (label t : string) :
  get sim "simState" = Ok state ->
  getStateName (js_or state (JNum 0)) = Ok label ->
  sim_list_entry sim index = Ok t ->
  exists pre post, t = pre ++ "   ├─ Status: " ++ label ++ nl ++ post.
Proof.
  intros S L E. unfold sim_list_entry in E.
  apply tpl_cons_Ok in E as (a1 & b1 & _ & E & ->).
  apply tpl_cons_Ok in E as (a2 & b2 & _ & E & ->).
  apply tpl_cons_Ok in E as (a3 & b3 & _ & E & ->).
  apply tpl_cons_Ok in E as (a4 & b4 & _ & E & ->).
  apply tpl_cons_Ok in E as (a5 & b5 & _ & E & ->).
  apply tpl_cons_Ok in E as (a6 & post & R & _ & ->).
  apply row_Ok in R as (v & V & ->).
  rewrite S in V. cbn [bind] in V. rewrite L in V. injection V as <-.
  exists (a1 ++ a2 ++ a3 ++ a4 ++ a5), post.
  now rewrite !append_assoc.
Qed.

(** The status line of the SIM details. *)
Lemma sim_detail_status (c : CMPClient) (response sim state : JsVal)
    (label t : string) :
  get response "data" = Ok sim ->
  get sim "simState" = Ok state ->
  getStateName (js_or state (JNum 0)) = Ok label ->
  sim_detail_success c response = Ok (text_result t) ->
  exists pre post, t = pre ++ "├─ Status: " ++ label ++ nl ++ post.
Proof.
  intros D S L E. unfold sim_detail_success in E.
  rewrite D in E. cbn [bind] in E.
  apply bind_Ok in E as (head & Hd & E).
  apply bind_Ok in E as (used & _ & E).
  apply bind_Ok in E as (formatted & _ & E).
  apply bind_Ok in E as (last & _ & E).
  injection E as <-.
  apply tpl_cons_Ok in Hd as (a1 & b1 & _ & Hd & ->).
  apply tpl_cons_Ok in Hd as (a2 & b2 & _ & Hd & ->).
  apply tpl_cons_Ok in Hd as (a3 & b3 & _ & Hd & ->).
  apply tpl_cons_Ok in Hd as (a4 & b4 & _ & Hd & ->).
  apply tpl_cons_Ok in Hd as (a5 & b5 & _ & Hd & ->).
  apply tpl_cons_Ok in Hd as (a6 & b6 & _ & Hd & ->).
  apply tpl_cons_Ok in Hd as (a7 & b7 & _ & Hd & ->).
  apply tpl_cons_Ok in Hd as (a8 & b8 & _ & Hd & ->).
  apply tpl_cons_Ok in Hd as (a9 & b9 & _ & Hd & ->).
  apply tpl_cons_Ok in Hd as (a10 & post & R & _ & ->).
  apply row_Ok in R as (v & V & ->).
  rewrite S in V. cbn [bind] in V. rewrite L in V. injection V as <-.
  exists (a1 ++ a2 ++ a3 ++ a4 ++ a5 ++ a6 ++ a7 ++ a8 ++ a9), (post ++ last).
  now rewrite !append_assoc.
Qed.

(** C9.  The state code [6] is labelled ["Active"] and the unmapped code
    [99], like every code outside the table, is labelled ["Unknown (99)"],
    without a failure: so [getStateName] answers, and so reads the status
    line of every device record that [query_sim_list] or [query_sim_detail]
    renders. *)
Theorem state_code_labels :
  (getStateName (JNum 6) = Ok "Active" /\
   getStateName (JNum 99) = Ok "Unknown (99)" /\
   forall code, assocZ code stateMap = None ->
     getStateName (JNum code) = Ok ("Unknown (" ++ num_to_string code ++ ")"))
  /\
  (forall sim index t,
     sim_list_entry sim index = Ok t ->
     (get sim "simState" = Ok (JNum 6) ->
      exists pre post, t = pre ++ "   ├─ Status: Active" ++ nl ++ post) /\
     (get sim "simState" = Ok (JNum 99) ->
      exists pre post, t = pre ++ "   ├─ Status: Unknown (99)" ++ nl ++ post))
  /\
  (forall c response sim t,
     get response "data" = Ok sim ->
     sim_detail_success c response = Ok (text_result t) ->
     (get sim "simState" = Ok (JNum 6) ->
      exists pre post, t = pre ++ "├─ Status: Active" ++ nl ++ post) /\
     (get sim "simState" = Ok (JNum 99) ->
      exists pre post, t = pre ++ "├─ Status: Unknown (99)" ++ nl ++ post)).
Proof.
  split; [split; [| split]; try reflexivity; exact unmapped_state |]. split.
  - intros sim index t E. split; intros S.
    + exact (@sim_list_entry_status sim (JNum 6) index "Active" t S eq_refl E).
    + exact (@sim_list_entry_status sim (JNum 99) index "Unknown (99)" t S
               eq_refl E).
  - intros c response sim t D E. split; intros S.
    + exact (@sim_detail_status c response sim (JNum 6) "Active" t D S
               eq_refl E).
    + exact (@sim_detail_status c response sim (JNum 99) "Unknown (99)" t D S
               eq_refl E).
Qed.


(** *** Session initialisation *)

(** A key that is set to the empty string counts as missing: [init] throws
    although both variables are present. *)
Lemma init_empty_key_throws :
  ~ init_by_presence
      {| CMP_API_KEY := Some ""; CMP_API_SECRET := Some "secret";
         CMP_API_ENDPOINT := None |}.
Proof.
  intros [_ Hpresent].
  destruct Hpresent as [Hlen _]; [split; discriminate |].
  cbn in Hlen. discriminate.
Qed.

Lemma env_value_truthy (var : option string) :
  truthy (env_value var) = true <-> exists s, var = Some s /\ s <> "".
Proof.
  destruct var as [s |]; cbn.
  - rewrite negb_true_iff, String.eqb_neq. split.
    + intros Hs. eauto.
    + intros (s' & E & Hs). now injection E as ->.
  - split; [discriminate | intros (s & E & _); discriminate].
Qed.

(** C5, amended.  [init] fails fast on a key or secret that is absent or
    empty: it logs one error and throws, with no adapter constructed and no
    tool registered.  With a non-empty key and a non-empty secret it
    returns, having constructed the adapter exactly once, from the key, the
    secret and the endpoint (or its default), and having registered the four
    tools after that. *)
Theorem init_fails_fast (env : Env) :
  (truthy (env_value (CMP_API_KEY env)) = false \/
   truthy (env_value (CMP_API_SECRET env)) = false ->
     init env = ([ConsoleError "❌ Missing CMP API credentials"],
                 Throw missing_credentials) /\
     constructions (fst (init env)) = [] /\
     registered (fst (init env)) = [])
  /\
  (forall key secret,
     CMP_API_KEY env = Some key -> key <> "" ->
     CMP_API_SECRET env = Some secret -> secret <> "" ->
     snd (init env) = Ok tt /\
     constructions (fst (init env))
     = [NewCMPClient (JStr key) (JStr secret) (endpoint_of env)] /\
     registered (fst (init env)) = four_tools /\
     exists before,
       fst (init env)
       = (before ++ NewCMPClient (JStr key) (JStr secret) (endpoint_of env)
            :: ConsoleLog [JStr "📡 CMP Client initialized successfully"]
            :: map RegisterTool four_tools)%list /\
       constructions before = [] /\ registered before = []).
Proof.
  split.
  - intros Hmissing.
    assert (E : init env = ([ConsoleError "❌ Missing CMP API credentials"],
                            Throw missing_credentials)).
    { unfold init. destruct Hmissing as [-> | ->]; cbn [negb orb].
      - reflexivity.
      - rewrite orb_true_r. reflexivity. }
    rewrite E. repeat split.
  - intros key secret Ek Hk Es Hs.
    assert (Tk : truthy (JStr key) = true).
    { cbn. now rewrite negb_true_iff, String.eqb_neq. }
    assert (Ts : truthy (JStr secret) = true).
    { cbn. now rewrite negb_true_iff, String.eqb_neq. }
    unfold init. rewrite Ek, Es. cbn [env_value].
    rewrite Tk, Ts. cbn [negb orb].
    fold (endpoint_of env). unfold configured. rewrite Tk, Ts.
    cbn. repeat split.
    eexists [_; _; _; _]. cbn. repeat split.
Qed.


(** *** The authorization routes *)

Lemma prefix_split (p s : string) :
  prefix p s = true <-> exists post, s = p ++ post.
Proof.
  revert s. induction p as [| a p IH]; intros s.
  - cbn. split; [intros _; exists s; reflexivity | now destruct s].
  - destruct s as [| b s]; cbn.
    + split; [discriminate | intros (post & E); discriminate].
    + destruct (ascii_dec a b) as [-> | Hab].
      * rewrite IH. split; intros (post & E); exists post.
        -- now rewrite E.
        -- now injection E.
      * split; [discriminate |].
        intros (post & E). injection E as -> _. now elim Hab.
Qed.

(** [includes] is substring search. *)
Lemma includes_split (needle s : string) :
  includes needle s = true <-> exists pre post, s = pre ++ needle ++ post.
Proof.
  induction s as [| a s IH].
  - cbn [includes]. rewrite orb_false_r, prefix_split. split.
    + intros (post & E). now exists "", post.
    + intros ([| b pre] & post & E); [now exists post | discriminate].
  - cbn [includes]. rewrite orb_true_iff, prefix_split, IH. split.
    + intros [(post & E) | (pre & post & E)].
      * now exists "", post.
      * exists (String a pre), post. cbn. now rewrite E.
    + intros ([| b pre] & post & E).
      * left. now exists post.
      * right. cbn in E. injection E as _ E. now exists pre, post.
Qed.

Lemma truthy_readable (v : JsVal) (key : string) :
  truthy v = true -> get v key = Ok (property v key).
Proof.
  unfold property. destruct v; cbn; try discriminate; reflexivity.
Qed.

(** The client test on a redirect URI that is a string. *)
Lemma programmatic_client_string (uri : string) :
  programmatic_client (JStr uri) = Ok (has_marker uri).
Proof.
  unfold programmatic_client, has_marker. cbn [truthy].
  destruct uri as [| a uri]; [reflexivity |].
  cbn [String.eqb negb js_includes object_coercible bind].
  now destruct (includes "claude.ai" (String a uri)).
Qed.

Section Approval.
Context `{OAuthHelpers}.

(** Any action but [reject] on a recovered request makes the one completion
    call, and the answer follows the store and the client test. *)
Lemma approve_completes (form : ApproveForm) :
  truthy (oauthReqInfo form) = true ->
  strict_eq_str (action form) "reject" = false ->
  approve form =
  ([CompleteAuthorization (grant_options form)],
   redirectTo <- completeAuthorization (grant_options form) ;;
   programmatic <-
     programmatic_client (property (oauthReqInfo form) "redirect_uri") ;;
   Ok (if programmatic : bool then redirect redirectTo 302
       else approved_page redirectTo)).
Proof.
  intros T A. unfold approve. rewrite T, A. cbn [negb].
  unfold login_refused. rewrite andb_false_r.
  unfold complete.
  rewrite (truthy_readable _ "scope" T), (truthy_readable _ "redirect_uri" T).
  cbn [lift ebind emit app]. fold (grant_options form).
  generalize (grant_options form)
    (programmatic_client (property (oauthReqInfo form) "redirect_uri")).
  intros options test.
  destruct (completeAuthorization options) as [redirectTo | e]; [| reflexivity].
  destruct test as [[] | e]; reflexivity.
Qed.

(** The client test on a request without a redirect URI. *)
Lemma programmatic_client_absent : programmatic_client JUndefined = Ok false.
Proof. reflexivity. Qed.

(** C2.  Rejecting a recovered request answers by the redirect URI alone:
    a URI that contains [claude.ai] or [mcp] gets a 302 to the URI followed
    by [?error=access_denied&...], any other URI, and a request without
    one, gets the HTML rejection page; a redirect is returned exactly when
    a marker is present. *)
Theorem reject_outcome (form : ApproveForm) :
  truthy (oauthReqInfo form) = true ->
  action form = JStr "reject" ->
  (forall uri, get (oauthReqInfo form) "redirect_uri" = Ok (JStr uri) ->
     (has_marker uri = true ->
        approve form = ([], Ok (redirect (uri ++ error_query) 302))) /\
     (has_marker uri = false -> approve form = ([], Ok rejected_page)) /\
     ((exists location status,
         snd (approve form) = Ok (redirect location status))
      <-> has_marker uri = true))
  /\
  (get (oauthReqInfo form) "redirect_uri" = Ok JUndefined ->
     approve form = ([], Ok rejected_page)).
Proof.
  intros T A.
  assert (R : approve form = lift (reject (oauthReqInfo form))).
  { unfold approve. rewrite T, A. reflexivity. }
  rewrite R. unfold reject. split.
  - intros uri U. rewrite U. cbn [bind tpl sub lit ToString].
    rewrite programmatic_client_string. cbn [bind lift snd].
    destruct (has_marker uri); (split; [| split]);
      try discriminate; try reflexivity.
    + split; [reflexivity | intros _; eauto].
    + split; [| discriminate]. intros (location & status & E). discriminate.
  - intros ->. reflexivity.
Qed.

(** C3.  Without a recovered request the route answers 401 with
    [INVALID LOGIN] and makes no call to the grant store. *)
Theorem approve_without_request (form : ApproveForm) :
  truthy (oauthReqInfo form) = false ->
  approve form = ([], Ok (html (raw "INVALID LOGIN") 401)).
Proof.
  intros T. unfold approve. now rewrite T.
Qed.

(** C6.  Approving a recovered request (any action but [reject]) makes
    exactly one call to [completeAuthorization], with the request, the user
    id, the metadata, the scope of the request and the props; when the call
    returns [redirectTo], a redirect URI with a marker is answered by a 302
    to [redirectTo] itself, and any other, or none, by the HTML approval
    page. *)
Theorem approve_outcome (form : ApproveForm) (redirectTo : string) :
  truthy (oauthReqInfo form) = true ->
  strict_eq_str (action form) "reject" = false ->
  completeAuthorization (grant_options form) = Ok redirectTo ->
  fst (approve form) = [CompleteAuthorization (grant_options form)] /\
  (forall uri, get (oauthReqInfo form) "redirect_uri" = Ok (JStr uri) ->
     (has_marker uri = true ->
        snd (approve form) = Ok (redirect redirectTo 302)) /\
     (has_marker uri = false ->
        snd (approve form) = Ok (approved_page redirectTo))) /\
  (get (oauthReqInfo form) "redirect_uri" = Ok JUndefined ->
     snd (approve form) = Ok (approved_page redirectTo)).
Proof.
  intros T A S. rewrite (approve_completes form T A). cbn [fst snd].
  rewrite S. cbn [bind]. unfold property.
  split; [reflexivity |]. split.
  - intros uri ->. rewrite programmatic_client_string. cbn [bind].
    split; now intros ->.
  - now intros ->.
Qed.

(** C10.  On a recovered request, [approve] and [login_approve] go on to the
    completion call whatever the email and the password are: the
    credential check refuses nothing, the route never answers with the
    rejection page, and once the store returns, the answer is the redirect
    or the approval page; an empty or absent email makes the user id and
    [props.userEmail] the default [user@example.com]. *)
Theorem login_accepts_anything (form : ApproveForm) :
  truthy (oauthReqInfo form) = true ->
  action form = JStr "approve" \/ action form = JStr "login_approve" ->
  login_refused (email form) (password form) = false /\
  fst (approve form) = [CompleteAuthorization (grant_options form)] /\
  snd (approve form) <> Ok rejected_page /\
  (forall redirectTo uri,
     completeAuthorization (grant_options form) = Ok redirectTo ->
     get (oauthReqInfo form) "redirect_uri" = Ok (JStr uri) ->
     snd (approve form)
     = Ok (if has_marker uri then redirect redirectTo 302
           else approved_page redirectTo)) /\
  userId (grant_options form) = js_or (email form) default_user /\
  props (grant_options form)
  = JObj [("userEmail", js_or (email form) default_user)] /\
  (truthy (email form) = false ->
     userId (grant_options form) = JStr "user@example.com" /\
     props (grant_options form) = JObj [("userEmail", JStr "user@example.com")]).
Proof.
  intros T A.
  assert (R : strict_eq_str (action form) "reject" = false).
  { destruct A as [-> | ->]; reflexivity. }
  rewrite (approve_completes form T R). cbn [fst snd].
  split; [reflexivity |]. split; [reflexivity |]. split; [| split].
  - destruct (completeAuthorization (grant_options form)) as [redirectTo | e];
      cbn [bind]; [| discriminate].
    destruct (programmatic_client _) as [[] | e]; cbn [bind]; discriminate.
  - intros redirectTo uri -> U. unfold property. rewrite U.
    rewrite programmatic_client_string. reflexivity.
  - split; [reflexivity |]. split; [reflexivity |].
    intros E. cbn [grant_options userId props]. unfold js_or. rewrite E.
    split; reflexivity.
Qed.

(** C7.  On a request the store parses, the body of [GET /authorize] renders
    the logged-in screen exactly when its flag is true and the logged-out
    screen exactly when it is false, over the fixed scope list; the route
    runs it with the flag the source sets, [true]. *)
Theorem authorize_screen (flag : bool) (req : Request) (info : JsVal) :
  parseAuthRequest req = Ok info ->
  (authorize_page flag req
   = Ok (html (layout (renderLoggedInAuthorizeScreen oauthScopes info)
                 authorize_title) 200)
   <-> flag = true) /\
  (authorize_page flag req
   = Ok (html (layout (renderLoggedOutAuthorizeScreen oauthScopes info)
                 authorize_title) 200)
   <-> flag = false) /\
  authorize req = authorize_page true req.
Proof.
  intros P. unfold authorize, authorize_page, isLoggedIn. rewrite P. cbn [bind].
  destruct flag; repeat split; intros; try reflexivity; discriminate.
Qed.

End Approval.

(** *** Further properties of the authorization routes *)

Section ApprovalFurther.
Context `{OAuthHelpers}.

(** The grant store is called exactly when a request was recovered and the
    action is not [reject], and then once, with the grant of the form: no
    route makes a second call, and rejecting never completes a grant. *)
Theorem grant_store_calls (form : ApproveForm) :
  fst (approve form) =
  if truthy (oauthReqInfo form) && negb (strict_eq_str (action form) "reject")
  then [CompleteAuthorization (grant_options form)]
  else [].
Proof.
  destruct (truthy (oauthReqInfo form)) eqn:T.
  - destruct (strict_eq_str (action form) "reject") eqn:A.
    + unfold approve. rewrite T, A. reflexivity.
    + now rewrite (approve_completes form T A).
  - unfold approve. rewrite T. reflexivity.
Qed.

(** A completion call that throws ends the route with that error, after
    the one call: no retry, no page. *)
Theorem completion_failure_propagates (form : ApproveForm) (e : Thrown) :
  truthy (oauthReqInfo form) = true ->
  strict_eq_str (action form) "reject" = false ->
  completeAuthorization (grant_options form) = Throw e ->
  approve form = ([CompleteAuthorization (grant_options form)], Throw e).
Proof.
  intros T A S. rewrite (approve_completes form T A). now rewrite S.
Qed.

(** The grant is completed before the redirect URI is looked at: a request
    whose [redirect_uri] is truthy but neither a string nor an array is
    granted, and the route then throws on [redirectUri.includes]. *)
Theorem grant_precedes_client_test (form : ApproveForm) (redirectTo : string) :
  truthy (oauthReqInfo form) = true ->
  strict_eq_str (action form) "reject" = false ->
  lacks_includes (property (oauthReqInfo form) "redirect_uri") = true ->
  completeAuthorization (grant_options form) = Ok redirectTo ->
  approve form = ([CompleteAuthorization (grant_options form)],
                  Throw (not_a_function "redirectUri.includes")).
Proof.
  intros T A L S. rewrite (approve_completes form T A), S. cbn [bind].
  unfold lacks_includes in L. apply andb_true_iff in L as [L M].
  unfold programmatic_client. rewrite L.
  destruct (property (oauthReqInfo form) "redirect_uri");
    try discriminate L; try discriminate M; reflexivity.
Qed.

(** The client test is containment anywhere in the URI, not a test of its
    host: rejecting is answered by a redirect exactly when [claude.ai] or
    [mcp] occurs somewhere in the redirect URI. *)
Theorem marker_anywhere (form : ApproveForm) (uri : string) :
  truthy (oauthReqInfo form) = true ->
  action form = JStr "reject" ->
  get (oauthReqInfo form) "redirect_uri" = Ok (JStr uri) ->
  ((exists pre post, uri = pre ++ "claude.ai" ++ post \/ uri = pre ++ "mcp" ++ post)
   <-> approve form = ([], Ok (redirect (uri ++ error_query) 302))).
Proof.
  intros T A U.
  assert (R : approve form = lift (reject (oauthReqInfo form))).
  { unfold approve. rewrite T, A. reflexivity. }
  rewrite R. unfold reject. rewrite U. cbn [bind tpl sub lit ToString].
  rewrite programmatic_client_string. cbn [bind lift].
  assert (M : has_marker uri = true <->
              exists pre post,
                uri = pre ++ "claude.ai" ++ post \/ uri = pre ++ "mcp" ++ post).
  { unfold has_marker. rewrite orb_true_iff, !includes_split. split.
    - intros [(pre & post & E) | (pre & post & E)]; exists pre, post; auto.
    - intros (pre & post & [E | E]); [left | right]; now exists pre, post. }
  rewrite <- M. destruct (has_marker uri); split; intros E;
    try reflexivity; discriminate E.
Qed.

(** Every answer of [POST /approve]: 401 exactly for a missing request;
    after [reject] the rejection page or a 302; otherwise a 302 to, or the
    approval page for, the [redirectTo] the store returned. *)
Theorem approve_responses (form : ApproveForm) (r : Response) :
  snd (approve form) = Ok r ->
  (truthy (oauthReqInfo form) = false /\ r = html (raw "INVALID LOGIN") 401)
  \/
  (truthy (oauthReqInfo form) = true /\
   strict_eq_str (action form) "reject" = true /\
   (r = rejected_page \/ exists location, r = redirect location 302))
  \/
  (truthy (oauthReqInfo form) = true /\
   strict_eq_str (action form) "reject" = false /\
   exists redirectTo,
     completeAuthorization (grant_options form) = Ok redirectTo /\
     (r = approved_page redirectTo \/ r = redirect redirectTo 302)).
Proof.
  destruct (truthy (oauthReqInfo form)) eqn:T.
  - destruct (strict_eq_str (action form) "reject") eqn:A.
    + unfold approve. rewrite T, A. cbn [negb lift snd]. intros E.
      right. left. repeat split.
      unfold reject in E.
      apply bind_Ok in E as (uri & _ & E).
      apply bind_Ok in E as (location & _ & E).
      apply bind_Ok in E as ([] & _ & E); injection E as <-; eauto.
    + rewrite (approve_completes form T A). cbn [snd]. intros E.
      right. right. repeat split.
      apply bind_Ok in E as (redirectTo & S & E).
      apply bind_Ok in E as ([] & _ & E); injection E as <-; eauto.
  - unfold approve. rewrite T. cbn. intros E. injection E as <-. now left.
Qed.

End ApprovalFurther.

(** *** Further properties of the session initialisation *)

(** [init] never prints a credential: whatever the environment, each value
    it hands to the console is one of its own string literals or the
    endpoint. *)
Theorem init_logs_no_credentials (env : Env) (v : JsVal) :
  In v (console_values (fst (init env))) ->
  In v init_literals \/ v = endpoint_of env.
Proof.
  unfold init. fold (endpoint_of env).
  destruct (truthy (env_value (CMP_API_KEY env))) eqn:Tk;
    destruct (truthy (env_value (CMP_API_SECRET env))) eqn:Ts;
    unfold configured; rewrite ?Tk, ?Ts; cbn;
    intuition (subst; auto).
Qed.

(** The adapter is built for the endpoint of the environment when that is
    set and not empty, and for the default endpoint otherwise. *)
Theorem init_endpoint (env : Env) (key secret : string) :
  CMP_API_KEY env = Some key -> key <> "" ->
  CMP_API_SECRET env = Some secret -> secret <> "" ->
  (forall url, CMP_API_ENDPOINT env = Some url -> url <> "" ->
     constructions (fst (init env))
     = [NewCMPClient (JStr key) (JStr secret) (JStr url)]) /\
  (CMP_API_ENDPOINT env = None \/ CMP_API_ENDPOINT env = Some "" ->
     constructions (fst (init env))
     = [NewCMPClient (JStr key) (JStr secret) (JStr default_endpoint)]).
Proof.
  intros Ek Hk Es Hs.
  assert (C : constructions (fst (init env))
              = [NewCMPClient (JStr key) (JStr secret) (endpoint_of env)]).
  { assert (Tk : truthy (JStr key) = true).
    { cbn. now rewrite negb_true_iff, String.eqb_neq. }
    assert (Ts : truthy (JStr secret) = true).
    { cbn. now rewrite negb_true_iff, String.eqb_neq. }
    unfold init. rewrite Ek, Es. cbn [env_value]. rewrite Tk, Ts.
    reflexivity. }
  rewrite C. unfold endpoint_of, js_or. split.
  - intros url -> Hu. cbn [env_value truthy].
    apply String.eqb_neq in Hu. now rewrite Hu.
  - intros [-> | ->]; reflexivity.
Qed.

(** *** Further properties of the tool handlers *)

Lemma append_empty (s : string) : s ++ "" = s.
Proof.
  induction s as [| ch s IH]; cbn; [reflexivity | now rewrite IH].
Qed.

Lemma readable_by_property (r v : JsVal) (key key' : string) :
  get r key = Ok v -> object_coercible r key' = Ok tt.
Proof.
  destruct r; cbn; intros E; try discriminate E; reflexivity.
Qed.

(** The text of the [else] branch. *)
Lemma query_failed_text (r msg : JsVal) (detail : string) :
  get r "msg" = Ok msg -> reported msg detail ->
  query_failed r = Ok (text_result ("❌ Query failed: " ++ detail)).
Proof.
  intros M R. unfold query_failed, sub_or. rewrite M. cbn [tpl lit bind].
  destruct R as [(-> & Hd) | (F & ->)].
  - unfold js_or. cbn [truthy]. apply String.eqb_neq in Hd. rewrite Hd.
    cbn [negb ToString bind]. now rewrite append_empty.
  - unfold js_or. rewrite F. reflexivity.
Qed.

Section Upstream.
Context `{Engine} `{ProfileLabels}.
Variable c : CMPClient.

(** A response with the success code but no data is answered with the
    failure text of the [catch] clause, in each of the four tools: the
    success branch reads a property of the missing data and the type error
    is caught. *)
Theorem success_code_without_data (params iccid month r d : JsVal) :
  get r "code" = Ok (JNum 200) ->
  get r "data" = Ok d ->
  nullish d = true ->
  (querySimList c params = Ok r ->
   query_sim_list c params
   = text_result ("❌ Failed to query SIM list: "
                  ++ error_message (cannot_read (nullish_word d) "list"))) /\
  (querySimDetail c iccid = Ok r ->
   query_sim_detail c iccid
   = text_result ("❌ Failed to query SIM details: "
                  ++ error_message (cannot_read (nullish_word d) "simId"))) /\
  (querySimMonthData c (JObj [("iccid", iccid); ("month", month)]) = Ok r ->
   query_sim_usage c iccid month
   = text_result ("❌ Failed to query SIM usage: "
                  ++ error_message (cannot_read (nullish_word d) "iccid"))) /\
  (queryEuiccPage c params = Ok r ->
   query_euicc_list c params
   = text_result ("❌ Failed to query eUICC list: "
                  ++ error_message (cannot_read (nullish_word d) "data"))).
Proof.
  intros C D N.
  unfold query_sim_list, query_sim_detail, query_sim_usage, query_euicc_list.
  unfold strict_success, lenient_success.
  unfold sim_list_success, sim_detail_success, sim_usage_success,
    euicc_list_success.
  repeat split; intros ->; cbn [bind]; rewrite C; cbn [bind strict_eq_num];
    change (200 =? 200) with true; cbn iota; rewrite D; cbn [bind];
    destruct d; try discriminate N; reflexivity.
Qed.

(** A response that is not a success is answered with [Query failed:]
    followed by the message of the response, or by [Unknown error] when
    the response has none; whatever else the response holds is ignored. *)
Theorem upstream_failure_text (params iccid month r msg : JsVal)
    (detail : string) :
  get r "msg" = Ok msg ->
  reported msg detail ->
  (querySimList c params = Ok r -> code_is_200 r = false ->
   query_sim_list c params = text_result ("❌ Query failed: " ++ detail)) /\
  (querySimDetail c iccid = Ok r -> code_is_200 r = false ->
   query_sim_detail c iccid = text_result ("❌ Query failed: " ++ detail)) /\
  (querySimMonthData c (JObj [("iccid", iccid); ("month", month)]) = Ok r ->
   code_is_200 r || data_object_present r = false ->
   query_sim_usage c iccid month
   = text_result ("❌ Query failed: " ++ detail)) /\
  (queryEuiccPage c params = Ok r ->
   code_is_200 r || data_object_present r = false ->
   query_euicc_list c params
   = text_result ("❌ Query failed: " ++ detail)).
Proof.
  intros M R.
  pose proof (@query_failed_text r msg detail M R) as Q.
  pose proof (@readable_by_property r msg "msg" "code" M) as O.
  unfold query_sim_list, query_sim_detail, query_sim_usage, query_euicc_list.
  repeat split; intros -> Hc; cbn [bind];
    rewrite ?strict_success_spec, ?lenient_success_spec, O; cbn [bind];
    rewrite Hc, Q; reflexivity.
Qed.

(** [query_sim_usage] reads nothing but the data of a response that carries
    a data object: two such responses with the same data get the same
    answer, whatever their codes and messages are. *)
Theorem usage_data_overrides_code (iccid1 month1 iccid2 month2 r1 r2 : JsVal) :
  querySimMonthData c (JObj [("iccid", iccid1); ("month", month1)]) = Ok r1 ->
  querySimMonthData c (JObj [("iccid", iccid2); ("month", month2)]) = Ok r2 ->
  data_object_present r1 = true ->
  get r1 "data" = get r2 "data" ->
  query_sim_usage c iccid1 month1 = query_sim_usage c iccid2 month2.
Proof.
  intros E1 E2 P1 D.
  assert (P2 : data_object_present r2 = true).
  { unfold data_object_present in *. now rewrite <- D. }
  assert (O1 : object_coercible r1 "code" = Ok tt).
  { unfold data_object_present in P1.
    destruct (get r1 "data") as [a | e] eqn:G; [| discriminate].
    exact (@readable_by_property r1 a "data" "code" G). }
  assert (O2 : object_coercible r2 "code" = Ok tt).
  { unfold data_object_present in P2.
    destruct (get r2 "data") as [a | e] eqn:G; [| discriminate].
    exact (@readable_by_property r2 a "data" "code" G). }
  unfold query_sim_usage. rewrite E1, E2. cbn [bind].
  rewrite !lenient_success_spec, O1, O2, P1, P2, !orb_true_r. cbn [bind].
  unfold sim_usage_success. now rewrite D.
Qed.

(** [query_euicc_list] accepts the page directly under [data] or one level
    deeper, under [data.data]: both shapes of the same page get the same
    answer. *)
Theorem euicc_nested_payload (params1 params2 r1 r2 : JsVal)
    (page wrapper : list (string * JsVal)) :
  queryEuiccPage c params1 = Ok r1 ->
  queryEuiccPage c params2 = Ok r2 ->
  get r1 "data" = Ok (JObj page) ->
  truthy (lookup "data" page) = false ->
  get r2 "data" = Ok (JObj wrapper) ->
  lookup "data" wrapper = JObj page ->
  get r1 "reqId" = get r2 "reqId" ->
  query_euicc_list c params1 = query_euicc_list c params2.
Proof.
  intros E1 E2 D1 F D2 W Q.
  pose proof (@readable_by_property r1 _ "data" "code" D1) as O1.
  pose proof (@readable_by_property r2 _ "data" "code" D2) as O2.
  assert (P1 : data_object_present r1 = true).
  { unfold data_object_present. now rewrite D1. }
  assert (P2 : data_object_present r2 = true).
  { unfold data_object_present. now rewrite D2. }
  unfold query_euicc_list. rewrite E1, E2. cbn [bind].
  rewrite !lenient_success_spec, O1, O2, P1, P2, !orb_true_r. cbn [bind].
  unfold euicc_list_success. rewrite D1, D2, Q. cbn [bind get object_coercible].
  rewrite W, F. cbn [truthy bind]. reflexivity.
Qed.

End Upstream.

Section Listings.
Context `{Engine} `{ProfileLabels}.
Variable c : CMPClient.



End Listings.

(** *** Lists of records *)

(** One record that cannot be rendered stops the loop. *)
Lemma each_throws (f : JsVal -> nat -> Result string) (x : JsVal)
    (items : list JsVal) :
  In x items -> (forall i, exists e, f x i = Throw e) ->
  forall start, exists e, each f start items = Throw e.
Proof.
  intros Hin Hx. induction items as [| y rest IH]; [contradiction |].
  intros start. cbn [each]. destruct Hin as [-> | Hin].
  - destruct (Hx start) as (e & ->). cbn. eauto.
  - destruct (IH Hin (S start)) as (e & ->).
    destruct (f y start) as [a | e']; cbn; eauto.
Qed.

(** The loop renders the records one by one, in order, each with its
    index, and appends the texts. *)
Lemma each_Ok (f : JsVal -> nat -> Result string) (items : list JsVal) :
  forall start t,
  each f start items = Ok t ->
  exists texts,
    Forall2 (fun p s => f (fst p) (snd p) = Ok s) (indexed start items) texts /\
    t = String.concat "" texts.
Proof.
  induction items as [| x rest IH]; intros start t E; cbn [each] in E.
  - injection E as <-. exists []. split; [constructor | reflexivity].
  - apply bind_Ok in E as (a & Ea & E).
    apply bind_Ok in E as (b & Eb & E). injection E as <-.
    destruct (IH _ _ Eb) as (texts & F & ->).
    exists (a :: texts). split.
    + unfold indexed. cbn [List.length seq combine]. now constructor.
    + destruct texts as [| s texts]; cbn [String.concat].
      * now rewrite append_empty.
      * reflexivity.
Qed.

Lemma sim_list_entry_start (sim : JsVal) (index : nat) (s : string) :
  sim_list_entry sim index = Ok s ->
  starts_with (nl ++ ordinal index ++ ". 📱 ICCID: ") s.
Proof.
  unfold sim_list_entry. intros E.
  apply tpl_cons_Ok in E as (a1 & b1 & E1 & E & ->).
  apply tpl_cons_Ok in E as (a2 & b2 & E2 & E & ->).
  apply tpl_cons_Ok in E as (a3 & b3 & E3 & _ & ->).
  injection E1 as <-. injection E2 as <-.
  apply row_Ok in E3 as (v & _ & ->).
  exists (v ++ nl ++ b3). now rewrite !append_assoc.
Qed.

Section Records.
Context `{Engine} `{ProfileLabels}.
Variable c : CMPClient.

(** No partial list: when one record of the list is [null] (or
    [undefined]), [query_sim_list] answers with the failure text of its
    [catch] clause and shows none of the records. *)
Theorem null_record_fails_list (params r : JsVal) (page : list (string * JsVal))
    (items : list JsVal) :
  querySimList c params = Ok r ->
  get r "code" = Ok (JNum 200) ->
  get r "data" = Ok (JObj page) ->
  lookup "list" page = JArr items ->
  In JNull items \/ In JUndefined items ->
  exists e,
    sim_list_success r = Throw e /\
    query_sim_list c params
    = text_result ("❌ Failed to query SIM list: " ++ error_message e).
Proof.
  intros E C D L Hin.
  assert (T : exists e, sim_list_success r = Throw e).
  { assert (Hloop : exists e, each sim_list_entry 0 items = Throw e).
    { destruct Hin as [Hin | Hin];
        apply (each_throws sim_list_entry _ items Hin); intros i; cbn; eauto. }
    destruct Hloop as (e & Hloop).
    assert (Hpos : (0 <? Z.of_nat (List.length items)) = true).
    { destruct items as [| x rest]; [now destruct Hin |].
      apply Z.ltb_lt. cbn [List.length]. lia. }
    unfold sim_list_success. rewrite D. cbn [bind get object_coercible].
    rewrite L. cbn [js_or truthy].
    match goal with
    | |- context [bind ?head _] =>
        match head with
        | tpl _ => destruct head as [h | e']; [| cbn; eauto]
        end
    end.
    cbn [bind get object_coercible]. change ("length" =? "length")%string with true.
    cbn iota. cbn [gt_zero bind]. rewrite Hpos.
    unfold forEach. cbn [tpl lit sub bind get object_coercible ToString].
    rewrite Hloop. cbn. eauto. }
  destruct T as (e & T). exists e. split; [exact T |].
  unfold query_sim_list. rewrite E. cbn [bind].
  unfold strict_success. rewrite C. cbn [bind].
  change (strict_eq_num (JNum 200) 200) with true. cbn iota.
  now rewrite T.
Qed.

(** The list as rendered: the count line carries the number of records,
    and the records follow in the order of the list, each rendered on its
    own and numbered from 1. *)
Theorem sim_list_records (r : JsVal) (page : list (string * JsVal))
    (items : list JsVal) (t : string) :
  get r "data" = Ok (JObj page) ->
  lookup "list" page = JArr items ->
  items <> [] ->
  sim_list_success r = Ok (text_result t) ->
  exists head texts,
    t = head ++ "🔍 Found " ++ num_to_string (Z.of_nat (List.length items))
             ++ " SIM cards:" ++ nl ++ String.concat "" texts /\
    Forall2 (fun p s =>
               sim_list_entry (fst p) (snd p) = Ok s /\
               starts_with (nl ++ ordinal (snd p) ++ ". 📱 ICCID: ") s)
      (indexed 0 items) texts.
Proof.
  intros D L N E.
  assert (Hpos : (0 <? Z.of_nat (List.length items)) = true).
  { destruct items as [| x rest]; [contradiction |].
    apply Z.ltb_lt. cbn [List.length]. lia. }
  unfold sim_list_success in E. rewrite D in E.
  cbn [bind get object_coercible] in E. rewrite L in E.
  cbn [js_or truthy] in E.
  apply bind_Ok in E as (head & _ & E).
  cbn [bind get object_coercible] in E.
  change ("length" =? "length")%string with true in E. cbn iota in E.
  cbn [gt_zero bind] in E. rewrite Hpos in E.
  apply bind_Ok in E as (body & B & E). injection E as <-.
  unfold forEach in B.
  cbn [tpl lit sub bind get object_coercible ToString] in B.
  apply bind_Ok in B as (b1 & B1 & B).
  apply bind_Ok in B1 as (b2 & B2 & B1).
  apply bind_Ok in B2 as (b3 & B3 & B2).
  apply bind_Ok in B3 as (b4 & B4 & B3).
  apply bind_Ok in B4 as (entries & Loop & B4).
  injection B4 as <-. injection B3 as <-. injection B2 as <-.
  injection B1 as <-. injection B as <-.
  destruct (each_Ok _ _ _ Loop) as (texts & F & ->).
  exists head, texts. split.
  - now rewrite append_empty.
  - clear Loop. revert F. generalize (indexed 0 items).
    intros l F. induction F as [| p s l' texts' Hp F IH]; constructor; auto.
    split; [exact Hp | exact (sim_list_entry_start _ _ Hp)].
Qed.

End Records.

(** *** Data usage as a string *)






Section UsageAmount.

(** The amount handed to [formatDataUsage] is a number whenever the usage
    is a string, and never a string, [undefined] or [null]. *)
Lemma usage_amount_kind (used : JsVal) :
  match usage_amount (js_or used (JNum 0)) with
  | JStr _ | JUndefined | JNull => False
  | _ => True
  end.
Proof.
  destruct used as [| | [] | n | s | items | fields]; cbn; auto.
  - unfold js_or. cbn [truthy]. now destruct (n =? 0).
  - unfold js_or. cbn [truthy]. now destruct (s =? "")%string.
Qed.

(** Two records that agree on every property but the usage, with usages
    that come to the same amount, get the same answer from an adapter
    that formats that amount alike. *)
Lemma sim_detail_same_amount (c1 c2 : CMPClient) (iccid1 iccid2 r1 r2 : JsVal)
    (sim1 sim2 : list (string * JsVal)) :
  querySimDetail c1 iccid1 = Ok r1 ->
  querySimDetail c2 iccid2 = Ok r2 ->
  get r1 "code" = Ok (JNum 200) -> get r2 "code" = Ok (JNum 200) ->
  get r1 "data" = Ok (JObj sim1) -> get r2 "data" = Ok (JObj sim2) ->
  (forall key, key <> "usedDataOfCurrentPeriod" ->
     lookup key sim1 = lookup key sim2) ->
  usage_amount (js_or (lookup "usedDataOfCurrentPeriod" sim1) (JNum 0))
  = usage_amount (js_or (lookup "usedDataOfCurrentPeriod" sim2) (JNum 0)) ->
  formatDataUsage c1
    (usage_amount (js_or (lookup "usedDataOfCurrentPeriod" sim1) (JNum 0)))
  = formatDataUsage c2
      (usage_amount (js_or (lookup "usedDataOfCurrentPeriod" sim1) (JNum 0))) ->
  query_sim_detail c1 iccid1 = query_sim_detail c2 iccid2.
Proof.
  intros E1 E2 C1 C2 D1 D2 Agree U F.
  assert (Hget : forall key, key <> "usedDataOfCurrentPeriod" ->
            get (JObj sim1) key = get (JObj sim2) key).
  { intros key Hkey. cbn. now rewrite (Agree key Hkey). }
  unfold query_sim_detail. rewrite E1, E2. cbn [bind].
  unfold strict_success. rewrite C1, C2. cbn [bind strict_eq_num Z.eqb Pos.eqb].
  unfold sim_detail_success. rewrite D1, D2. cbn [bind].
  repeat match goal with
         | |- context [get (JObj sim1) ?key] =>
             rewrite (Hget key) by discriminate
         end.
  change (get (JObj sim1) "usedDataOfCurrentPeriod")
    with (Ok (lookup "usedDataOfCurrentPeriod" sim1)).
  change (get (JObj sim2) "usedDataOfCurrentPeriod")
    with (Ok (lookup "usedDataOfCurrentPeriod" sim2)).
  cbn [bind]. rewrite <- U, F. reflexivity.
Qed.

Variable c : CMPClient.


(** A usage string that [parseInt] cannot read counts as no usage: the
    record is answered like the same record without the property. *)
Theorem sim_detail_unreadable_usage (s : string) (iccid1 iccid2 r1 r2 : JsVal)
    (sim1 sim2 : list (string * JsVal)) :
  querySimDetail c iccid1 = Ok r1 ->
  querySimDetail c iccid2 = Ok r2 ->
  get r1 "code" = Ok (JNum 200) -> get r2 "code" = Ok (JNum 200) ->
  get r1 "data" = Ok (JObj sim1) -> get r2 "data" = Ok (JObj sim2) ->
  (forall key, key <> "usedDataOfCurrentPeriod" ->
     lookup key sim1 = lookup key sim2) ->
  lookup "usedDataOfCurrentPeriod" sim1 = JStr s ->
  parseInt s = None ->
  lookup "usedDataOfCurrentPeriod" sim2 = JUndefined ->
  query_sim_detail c iccid1 = query_sim_detail c iccid2.
Proof.
  intros E1 E2 C1 C2 D1 D2 Agree U1 P U2.
  apply (sim_detail_same_amount c c iccid1 iccid2 E1 E2 C1 C2 D1 D2 Agree);
    [| reflexivity].
  rewrite U1, U2. unfold js_or, usage_amount, parseInt_or. cbn [truthy].
  destruct (s =? "")%string; cbn [negb]; [reflexivity |].
  now rewrite P.
Qed.

End UsageAmount.

(** [formatDataUsage] is never applied to a string, to [undefined] or to
    [null]: two adapters that answer the detail query alike and format
    every other value alike give the same answer. *)
Theorem format_never_sees_string (c1 c2 : CMPClient) (iccid : JsVal) :
  querySimDetail c1 iccid = querySimDetail c2 iccid ->
  (forall v,
     match v with JStr _ | JUndefined | JNull => False | _ => True end ->
     formatDataUsage c1 v = formatDataUsage c2 v) ->
  query_sim_detail c1 iccid = query_sim_detail c2 iccid.
Proof.
  intros Q F. unfold query_sim_detail. rewrite <- Q.
  destruct (querySimDetail c1 iccid) as [r | e]; [| reflexivity].
  cbn [bind]. destruct (strict_success r) as [[] | e]; cbn [bind];
    try reflexivity.
  unfold sim_detail_success.
  destruct (get r "data") as [sim | e]; [| reflexivity]. cbn [bind].
  match goal with
  | |- context [bind ?head _] =>
      match head with
      | tpl _ => destruct head as [h | e]; [| reflexivity]
      end
  end.
  cbn [bind].
  destruct (get sim "usedDataOfCurrentPeriod") as [used | e]; [| reflexivity].
  cbn [bind]. now rewrite (F _ (usage_amount_kind used)).
Qed.

(** *** The first line of an answer *)

Lemma starts_with_append (p a b : string) :
  starts_with p a -> starts_with p (a ++ b).
Proof.
  intros (rest & ->). exists (rest ++ b). now rewrite append_assoc.
Qed.

Ltac invert_binds E :=
  repeat (let x := fresh "x" in
          let Hx := fresh "Hx" in
          apply bind_Ok in E as (x & Hx & E)).

Ltac header_of E :=
  invert_binds E; injection E as <-;
  match goal with
  | Hd : tpl (lit _ :: _) = Ok _ |- _ =>
      apply tpl_cons_Ok in Hd as (a & b & Ea & _ & ->);
      injection Ea as <-;
      eexists; split; [reflexivity |];
      apply starts_with_append; exists b; reflexivity
  end.

Lemma query_failed_marked (r : JsVal) (res : ToolResult) :
  query_failed r = Ok res ->
  exists t, res = text_result t /\ starts_with "❌ " t.
Proof.
  unfold query_failed. intros E.
  apply bind_Ok in E as (t & T & E). injection E as <-.
  apply tpl_cons_Ok in T as (a & b & Ea & _ & ->). injection Ea as <-.
  eexists. split; [reflexivity |].
  exists ("Query failed: " ++ b). reflexivity.
Qed.

(** A handler whose success branch opens with [header] answers with a text
    that opens with [header] or with the failure mark. *)
Lemma marked_handler (adapter : Result JsVal) (test : JsVal -> Result bool)
    (success : JsVal -> Result ToolResult) (header tail : string) :
  (forall r res, success r = Ok res ->
     exists t, res = text_result t /\ starts_with header t) ->
  exists t,
    try_catch (response <- adapter ;;
               ok <- test response ;;
               if ok : bool then success response else query_failed response)
      ("❌ " ++ tail)
    = text_result t /\
    (starts_with header t \/ starts_with "❌ " t).
Proof.
  intros Hs.
  assert (Caught : forall e,
            exists t, text_result (("❌ " ++ tail) ++ error_message e)
                      = text_result t /\
                      (starts_with header t \/ starts_with "❌ " t)).
  { intros e. eexists. split; [reflexivity |]. right.
    exists (tail ++ error_message e). now rewrite append_assoc. }
  destruct adapter as [r | e]; cbn [bind try_catch]; [| apply Caught].
  destruct (test r) as [[] | e]; cbn [bind]; [| | apply Caught].
  - destruct (success r) as [res | e] eqn:E; cbn [try_catch]; [| apply Caught].
    destruct (Hs r res E) as (t & -> & St). eauto.
  - destruct (query_failed r) as [res | e] eqn:E; cbn [try_catch];
      [| apply Caught].
    destruct (query_failed_marked r E) as (t & -> & St). eauto.
Qed.

Section Texts.
Context `{Engine} `{ProfileLabels}.
Variable c : CMPClient.

Lemma sim_list_success_header (r : JsVal) (res : ToolResult) :
  sim_list_success r = Ok res ->
  exists t, res = text_result t /\ starts_with "📊 SIM Query Results" t.
Proof. unfold sim_list_success. intros E. header_of E. Qed.

Lemma sim_detail_success_header (r : JsVal) (res : ToolResult) :
  sim_detail_success c r = Ok res ->
  exists t, res = text_result t /\ starts_with "📱 SIM Card Details" t.
Proof. unfold sim_detail_success. intros E. header_of E. Qed.

Lemma sim_usage_success_header (r : JsVal) (res : ToolResult) :
  sim_usage_success r = Ok res ->
  exists t, res = text_result t /\ starts_with "📊 SIM Usage Details" t.
Proof. unfold sim_usage_success. intros E. header_of E. Qed.

Lemma euicc_list_success_header (r : JsVal) (res : ToolResult) :
  euicc_list_success r = Ok res ->
  exists t, res = text_result t /\ starts_with "📡 eUICC List Results" t.
Proof. unfold euicc_list_success. intros E. header_of E. Qed.

(** The envelope carries no error flag; the first line tells.  Whatever the
    adapter does, the text of an answer opens with the title of the tool's
    report or with the failure mark. *)
Theorem answers_are_marked (params iccid month : JsVal) :
  (exists t, query_sim_list c params = text_result t /\
     (starts_with "📊 SIM Query Results" t \/ starts_with "❌ " t)) /\
  (exists t, query_sim_detail c iccid = text_result t /\
     (starts_with "📱 SIM Card Details" t \/ starts_with "❌ " t)) /\
  (exists t, query_sim_usage c iccid month = text_result t /\
     (starts_with "📊 SIM Usage Details" t \/ starts_with "❌ " t)) /\
  (exists t, query_euicc_list c params = text_result t /\
     (starts_with "📡 eUICC List Results" t \/ starts_with "❌ " t)).
Proof.
  unfold query_sim_list, query_sim_detail, query_sim_usage, query_euicc_list.
  split; [| split; [| split]].
  - apply (marked_handler (querySimList c params) strict_success
             sim_list_success "Failed to query SIM list: "
             sim_list_success_header).
  - apply (marked_handler (querySimDetail c iccid) strict_success
             (sim_detail_success c) "Failed to query SIM details: "
             sim_detail_success_header).
  - apply (marked_handler
             (querySimMonthData c (JObj [("iccid", iccid); ("month", month)]))
             lenient_success sim_usage_success "Failed to query SIM usage: "
             sim_usage_success_header).
  - apply (marked_handler (queryEuiccPage c params) lenient_success
             euicc_list_success "Failed to query eUICC list: "
             euicc_list_success_header).
Qed.


End Texts.

(** ** The properties at sample inputs *)

#[local] Existing Instance sample_engine.
#[local] Existing Instance sample_labels.
#[local] Existing Instance sample_store.

Lemma status_code_policy_witness :
  let c := sample_client (fun _ => Ok odd_response) in
  failure_message "❌ Failed to query SIM list: " (query_sim_list c (JObj [])) /\
  failure_message "❌ Failed to query SIM details: "
    (query_sim_detail c (JStr "8986001")) /\
  query_sim_usage c (JStr "8986001") (JStr "202301")
  = try_catch (sim_usage_success odd_response) "❌ Failed to query SIM usage: " /\
  query_euicc_list c (JObj [])
  = try_catch (euicc_list_success odd_response) "❌ Failed to query eUICC list: ".
Proof.
  intros c.
  destruct (@status_code_policy sample_engine sample_labels c (JObj [])
              (JStr "8986001") (JStr "202301")) as (L & D & U & E).
  split; [apply (L odd_response eq_refl); reflexivity |].
  split; [apply (D odd_response eq_refl); reflexivity |].
  split; [apply (U odd_response eq_refl); reflexivity |].
  apply (E odd_response eq_refl); reflexivity.
Defined.

Lemma handlers_contain_errors_witness :
  let c := sample_client (fun _ => Throw (JsError "fetch failed")) in
  query_sim_list c (JObj [])
  = text_result "❌ Failed to query SIM list: fetch failed" /\
  query_sim_detail c (JStr "8986001")
  = text_result "❌ Failed to query SIM details: fetch failed" /\
  query_sim_usage c (JStr "8986001") (JStr "202301")
  = text_result "❌ Failed to query SIM usage: fetch failed" /\
  query_euicc_list c (JObj [])
  = text_result "❌ Failed to query eUICC list: fetch failed".
Proof.
  intros c.
  destruct (@handlers_contain_errors sample_engine sample_labels c (JObj [])
              (JStr "8986001") (JStr "202301")) as (_ & Hthrow).
  destruct (Hthrow (JsError "fetch failed")) as (L & D & U & E).
  split; [apply L; reflexivity |].
  split; [apply D; reflexivity |].
  split; [apply U; reflexivity | apply E; reflexivity].
Defined.

Lemma sim_detail_string_usage_witness :
  let c := sample_client detail_answer in
  query_sim_detail c (JStr "A") = query_sim_detail c (JStr "B") /\
  exists head,
    query_sim_detail c (JStr "A")
    = text_result (head ++ "└─ Current Period Data Usage: 2048 B" ++ nl).
Proof.
  intros c.
  assert (Agree : forall key, key <> "usedDataOfCurrentPeriod" ->
            lookup key (sim_fields (JStr "2048"))
            = lookup key (sim_fields (JNum 2048))).
  { intros key Hkey. unfold sim_fields, lookup.
    destruct ("iccid" =? key)%string; [reflexivity |].
    destruct ("simState" =? key)%string; [reflexivity |].
    destruct (String.eqb_spec "usedDataOfCurrentPeriod" key) as [E | _];
      [| reflexivity].
    now elim Hkey. }
  destruct (@sim_detail_string_usage c (JStr "A") (JStr "B")
              (detail_response (JStr "2048")) (detail_response (JNum 2048))
              (sim_fields (JStr "2048")) (sim_fields (JNum 2048))
              eq_refl eq_refl eq_refl eq_refl eq_refl eq_refl Agree
              eq_refl eq_refl) as (Same & Line).
  split; [exact Same |].
  assert (R : exists t, sim_detail_success c (detail_response (JStr "2048"))
                        = Ok (text_result t)) by (eexists; reflexivity).
  destruct R as (t & E).
  destruct (Line t E) as (head & formatted & F & ->).
  injection F as <-. exists head.
  change (query_sim_detail c (JStr "A"))
    with (try_catch (sim_detail_success c (detail_response (JStr "2048")))
            "❌ Failed to query SIM details: ").
  now rewrite E.
Defined.

Lemma state_code_labels_witness :
  let sim := JObj (sim_fields (JNum 0)) in
  exists t, sim_list_entry sim 0 = Ok t /\
    exists pre post, t = pre ++ "   ├─ Status: Active" ++ nl ++ post.
Proof.
  intros sim.
  assert (R : exists t, sim_list_entry sim 0 = Ok t) by (eexists; reflexivity).
  destruct R as (t & E). exists t. split; [exact E |].
  destruct state_code_labels as (_ & Entry & _).
  destruct (Entry sim 0%nat t E) as (Active & _).
  exact (Active eq_refl).
Defined.

Lemma init_fails_fast_witness :
  let env := {| CMP_API_KEY := Some "key"; CMP_API_SECRET := Some "secret";
                CMP_API_ENDPOINT := None |} in
  let bare := {| CMP_API_KEY := None; CMP_API_SECRET := Some "secret";
                 CMP_API_ENDPOINT := None |} in
  (snd (init env) = Ok tt /\
   constructions (fst (init env))
   = [NewCMPClient (JStr "key") (JStr "secret")
        (JStr "https://cmp.acceleronix.io/gateway/openapi")] /\
   registered (fst (init env)) = four_tools) /\
  init bare = ([ConsoleError "❌ Missing CMP API credentials"],
               Throw missing_credentials).
Proof.
  intros env bare. split.
  - destruct (init_fails_fast env) as (_ & Present).
    destruct (Present "key" "secret" eq_refl ltac:(discriminate) eq_refl
                ltac:(discriminate)) as (R & C & T & _).
    split; [exact R | split; [exact C | exact T]].
  - destruct (init_fails_fast bare) as (Missing & _).
    destruct (Missing (or_introl eq_refl)) as (E & _). exact E.
Defined.

Lemma reject_outcome_witness :
  approve (form_of (JStr "reject") claude_request JUndefined)
  = ([], Ok (redirect
               "https://claude.ai/callback?state=xyz?error=access_denied&error_description=User+denied+authorization"
               302)) /\
  approve (form_of (JStr "reject") browser_request JUndefined)
  = ([], Ok rejected_page).
Proof.
  split.
  - destruct (@reject_outcome sample_store
                (form_of (JStr "reject") claude_request JUndefined)
                eq_refl eq_refl) as (Uri & _).
    destruct (Uri "https://claude.ai/callback?state=xyz" eq_refl)
      as (Marked & _).
    exact (Marked eq_refl).
  - destruct (@reject_outcome sample_store
                (form_of (JStr "reject") browser_request JUndefined)
                eq_refl eq_refl) as (Uri & _).
    destruct (Uri "https://example.com/cb" eq_refl) as (_ & Plain & _).
    exact (Plain eq_refl).
Defined.

Lemma approve_without_request_witness :
  approve (form_of (JStr "approve") JNull (JStr "a@b.com"))
  = ([], Ok (html (raw "INVALID LOGIN") 401)).
Proof.
  exact (@approve_without_request sample_store
           (form_of (JStr "approve") JNull (JStr "a@b.com")) eq_refl).
Defined.

Lemma approve_outcome_witness :
  let form := form_of (JStr "approve") claude_request (JStr "a@b.com") in
  fst (approve form) = [CompleteAuthorization (grant_options form)] /\
  userId (grant_options form) = JStr "a@b.com" /\
  snd (approve form)
  = Ok (redirect "https://claude.ai/callback?code=abc&state=xyz" 302).
Proof.
  intros form.
  destruct (@approve_outcome sample_store form
              "https://claude.ai/callback?code=abc&state=xyz"
              eq_refl eq_refl eq_refl) as (Calls & Uri & _).
  destruct (Uri "https://claude.ai/callback?state=xyz" eq_refl)
    as (Marked & _).
  split; [exact Calls | split; [reflexivity | exact (Marked eq_refl)]].
Defined.

Lemma login_accepts_anything_witness :
  let form := form_of (JStr "login_approve") browser_request (JStr "") in
  fst (approve form) = [CompleteAuthorization (grant_options form)] /\
  userId (grant_options form) = JStr "user@example.com" /\
  props (grant_options form) = JObj [("userEmail", JStr "user@example.com")].
Proof.
  intros form.
  destruct (@login_accepts_anything sample_store form eq_refl
              (or_intror eq_refl)) as (_ & Calls & _ & _ & _ & _ & Default).
  destruct (Default eq_refl) as (User & Props).
  split; [exact Calls | split; [exact User | exact Props]].
Defined.

Lemma authorize_screen_witness :
  authorize_page true "https://server/authorize?client_id=client-1"
  = Ok (html (layout (renderLoggedInAuthorizeScreen oauthScopes claude_request)
                authorize_title) 200) /\
  authorize_page false "https://server/authorize?client_id=client-1"
  = Ok (html (layout (renderLoggedOutAuthorizeScreen oauthScopes claude_request)
                authorize_title) 200).
Proof.
  split.
  - destruct (@authorize_screen sample_store true
                "https://server/authorize?client_id=client-1" claude_request
                eq_refl) as ((_ & In) & _).
    exact (In eq_refl).
  - destruct (@authorize_screen sample_store false
                "https://server/authorize?client_id=client-1" claude_request
                eq_refl) as (_ & (_ & Out) & _).
    exact (Out eq_refl).
Defined.

Lemma completion_failure_propagates_witness :
  let form := form_of (JStr "approve") claude_request (JStr "a@b.com") in
  @approve failing_store form
  = ([CompleteAuthorization (grant_options form)],
     Throw (JsError "KV unavailable")).
Proof.
  intros form.
  exact (@completion_failure_propagates failing_store form
           (JsError "KV unavailable") eq_refl eq_refl eq_refl).
Defined.

Lemma grant_precedes_client_test_witness :
  let form := form_of (JStr "approve") numeric_uri_request JUndefined in
  approve form
  = ([CompleteAuthorization (grant_options form)],
     Throw (JsError "redirectUri.includes is not a function")).
Proof.
  intros form.
  exact (@grant_precedes_client_test sample_store form
           "https://claude.ai/callback?code=abc&state=xyz"
           eq_refl eq_refl eq_refl eq_refl).
Defined.

Lemma marker_anywhere_witness :
  let request :=
    JObj [("redirect_uri", JStr "https://example.com/cb?next=mcp")] in
  approve (form_of (JStr "reject") request JUndefined)
  = ([], Ok (redirect
               "https://example.com/cb?next=mcp?error=access_denied&error_description=User+denied+authorization"
               302)).
Proof.
  intros request.
  apply (@marker_anywhere sample_store (form_of (JStr "reject") request JUndefined)
           "https://example.com/cb?next=mcp" eq_refl eq_refl eq_refl).
  exists "https://example.com/cb?next=", "". right. reflexivity.
Defined.

Lemma approve_responses_witness :
  let form := form_of (JStr "approve") browser_request (JStr "a@b.com") in
  exists redirectTo,
    completeAuthorization (grant_options form) = Ok redirectTo /\
    snd (approve form) = Ok (approved_page redirectTo).
Proof.
  intros form.
  destruct (@approve_responses sample_store form
              (approved_page "https://claude.ai/callback?code=abc&state=xyz")
              eq_refl)
    as [(T & _) | [(_ & A & _) | (_ & _ & redirectTo & S & _)]];
    [discriminate T | discriminate A |].
  exists redirectTo. split; [exact S |].
  injection S as <-. reflexivity.
Defined.

Lemma init_logs_no_credentials_witness :
  let env := {| CMP_API_KEY := Some "key-123"; CMP_API_SECRET := Some "s3cr3t";
                CMP_API_ENDPOINT := None |} in
  ~ In (JStr "key-123") (console_values (fst (init env))) /\
  ~ In (JStr "s3cr3t") (console_values (fst (init env))).
Proof.
  intros env. split; intros Hin;
    destruct (init_logs_no_credentials env _ Hin) as [Lit | E];
    try discriminate E;
    cbn in Lit; repeat (destruct Lit as [Lit | Lit]; [discriminate Lit |]);
    exact Lit.
Defined.

Lemma init_endpoint_witness :
  constructions
    (fst (init {| CMP_API_KEY := Some "key"; CMP_API_SECRET := Some "secret";
                  CMP_API_ENDPOINT := Some "" |}))
  = [NewCMPClient (JStr "key") (JStr "secret") (JStr default_endpoint)] /\
  constructions
    (fst (init {| CMP_API_KEY := Some "key"; CMP_API_SECRET := Some "secret";
                  CMP_API_ENDPOINT := Some "https://staging.example/api" |}))
  = [NewCMPClient (JStr "key") (JStr "secret")
       (JStr "https://staging.example/api")].
Proof.
  split.
  - destruct (@init_endpoint
                {| CMP_API_KEY := Some "key"; CMP_API_SECRET := Some "secret";
                   CMP_API_ENDPOINT := Some "" |} "key" "secret"
                eq_refl ltac:(discriminate) eq_refl ltac:(discriminate))
      as (_ & Default).
    exact (Default (or_intror eq_refl)).
  - destruct (@init_endpoint
                {| CMP_API_KEY := Some "key"; CMP_API_SECRET := Some "secret";
                   CMP_API_ENDPOINT := Some "https://staging.example/api" |}
                "key" "secret"
                eq_refl ltac:(discriminate) eq_refl ltac:(discriminate))
      as (Given & _).
    exact (Given "https://staging.example/api" eq_refl ltac:(discriminate)).
Defined.

Lemma success_code_without_data_witness :
  let c := sample_client (fun _ => Ok bare_success) in
  query_sim_list c (JObj [])
  = text_result "❌ Failed to query SIM list: Cannot read properties of undefined (reading 'list')" /\
  query_euicc_list c (JObj [])
  = text_result "❌ Failed to query eUICC list: Cannot read properties of undefined (reading 'data')".
Proof.
  intros c.
  destruct (@success_code_without_data sample_engine sample_labels c (JObj [])
              (JStr "8986001") (JStr "202301") bare_success JUndefined
              eq_refl eq_refl eq_refl) as (L & _ & _ & E).
  split; [exact (L eq_refl) | exact (E eq_refl)].
Defined.

Lemma upstream_failure_text_witness :
  let c := sample_client (fun _ => Ok rate_limited) in
  query_sim_detail c (JStr "8986001")
  = text_result "❌ Query failed: Rate limit exceeded" /\
  query_sim_usage c (JStr "8986001") (JStr "202301")
  = text_result "❌ Query failed: Rate limit exceeded".
Proof.
  intros c.
  assert (R : reported (JStr "Rate limit exceeded") "Rate limit exceeded").
  { left. split; [reflexivity | discriminate]. }
  destruct (@upstream_failure_text sample_engine sample_labels c (JObj [])
              (JStr "8986001") (JStr "202301") rate_limited
              (JStr "Rate limit exceeded") "Rate limit exceeded" eq_refl R)
    as (_ & D & U & _).
  pose proof (D eq_refl eq_refl) as D'.
  pose proof (U eq_refl eq_refl) as U'.
  split; [exact D' | exact U'].
Defined.

Lemma usage_data_overrides_code_witness :
  let c := sample_client usage_answer in
  query_sim_usage c (JStr "A") (JStr "202301")
  = query_sim_usage c (JStr "B") (JStr "202301").
Proof.
  intros c.
  exact (@usage_data_overrides_code sample_engine c (JStr "A") (JStr "202301")
           (JStr "B") (JStr "202301") odd_response
           (JObj [("code", JNum 200); ("data", usage_report)])
           eq_refl eq_refl eq_refl eq_refl).
Defined.

Lemma euicc_nested_payload_witness :
  let c := sample_client euicc_answer in
  query_euicc_list c (JObj [("pageNum", JNum 1)])
  = query_euicc_list c (JObj [("pageNum", JNum 2)]).
Proof.
  intros c.
  exact (@euicc_nested_payload sample_engine sample_labels c
           (JObj [("pageNum", JNum 1)]) (JObj [("pageNum", JNum 2)])
           (JObj [("code", JNum 200); ("data", JObj euicc_page)])
           (JObj [("data", JObj [("code", JNum 200); ("data", JObj euicc_page)])])
           euicc_page [("code", JNum 200); ("data", JObj euicc_page)]
           eq_refl eq_refl eq_refl eq_refl eq_refl eq_refl eq_refl).
Defined.



Lemma null_record_fails_list_witness :
  let records := JArr [JObj (sim_fields (JNum 0)); JNull] in
  query_sim_list (sample_client (fun _ => Ok (page_response records))) (JObj [])
  = text_result "❌ Failed to query SIM list: Cannot read properties of null (reading 'iccid')".
Proof.
  intros records.
  destruct (@null_record_fails_list sample_engine
              (sample_client (fun _ => Ok (page_response records)))
              (JObj []) (page_response records) (page_of records)
              [JObj (sim_fields (JNum 0)); JNull]
              eq_refl eq_refl eq_refl eq_refl
              (or_introl (or_intror (or_introl eq_refl))))
    as (e & T & A).
  rewrite A. injection T as <-. reflexivity.
Defined.

Lemma sim_list_records_witness :
  exists t head texts,
    sim_list_success (page_response (JArr two_sims)) = Ok (text_result t) /\
    t = head ++ "🔍 Found 2 SIM cards:" ++ nl ++ String.concat "" texts /\
    List.length texts = 2%nat.
Proof.
  assert (R : exists t, sim_list_success (page_response (JArr two_sims))
                        = Ok (text_result t)) by (eexists; reflexivity).
  destruct R as (t & E).
  destruct (@sim_list_records sample_engine (page_response (JArr two_sims))
              (page_of (JArr two_sims)) two_sims t eq_refl eq_refl
              ltac:(discriminate) E) as (head & texts & T & F).
  exists t, head, texts. split; [exact E |]. split; [exact T |].
  apply Forall2_length in F. now rewrite <- F.
Defined.

Lemma sim_fields_agree (u1 u2 : JsVal) (key : string) :
  key <> "usedDataOfCurrentPeriod" ->
  lookup key (sim_fields u1) = lookup key (sim_fields u2).
Proof.
  intros Hkey. unfold sim_fields, lookup.
  destruct ("iccid" =? key)%string; [reflexivity |].
  destruct ("simState" =? key)%string; [reflexivity |].
  destruct (String.eqb_spec "usedDataOfCurrentPeriod" key) as [E | _];
    [| reflexivity].
  now elim Hkey.
Defined.


Lemma sim_detail_unreadable_usage_witness :
  let c := sample_client
             (answer_by_iccid (detail_response (JStr "n/a"))
                (detail_response JUndefined)) in
  query_sim_detail c (JStr "A") = query_sim_detail c (JStr "B").
Proof.
  intros c.
  exact (@sim_detail_unreadable_usage c "n/a" (JStr "A") (JStr "B")
           (detail_response (JStr "n/a")) (detail_response JUndefined)
           (sim_fields (JStr "n/a")) (sim_fields JUndefined)
           eq_refl eq_refl eq_refl eq_refl eq_refl eq_refl
           (sim_fields_agree (JStr "n/a") JUndefined) eq_refl eq_refl eq_refl).
Defined.

Lemma format_never_sees_string_witness :
  let answer := fun _ : JsVal => Ok (detail_response (JStr "2048")) in
  query_sim_detail (sample_client answer) (JStr "A")
  = query_sim_detail (strict_formatter answer) (JStr "A").
Proof.
  intros answer.
  apply (@format_never_sees_string (sample_client answer)
           (strict_formatter answer) (JStr "A") eq_refl).
  intros v Hv. destruct v; try contradiction; reflexivity.
Defined.

